(** * Elite Video Pipeline v3.0: job orchestration over a keyed store

    A shallow embedding of [emotional_index_v3.py], [cinematography_engine.py],
    [redis_orchestrator.py] and [pipeline_orchestrator.py], followed by the
    properties of the orchestration layer.

    Conventions of the embedding.
    - Python values of the archetype catalogue are terms of [pyval]; a Python
      [dict] is an association list in insertion order.
    - The keyed store (Redis) is an explicit state: hashes, lists and expiry
      times.  The client library encodes the field values of a hash before it
      sends them: it accepts strings and numbers, and for [None], a bool, a
      list or a dict it raises [DataError] with nothing sent.  What it accepts
      is stored as given.  JSON on the queues is not modelled: a queue holds
      the attribute maps themselves.  [scan_iter] is one call that yields the
      matching keys.
    - Every call to the store may raise; which calls raise is fixed by a
      schedule carried in the state, so that the embedding stays a function.
      A call that raises leaves the store as it was.  Exceptions do not undo
      what was written before them.
    - [time.time()] is a reading of the wall clock in microseconds: the last
      reading plus a step that the environment gives.  A step may be negative,
      since the wall clock can be set back.  [int(time.time() * 1000)] is the
      reading divided by 1000, truncated (the rounding of the float product is
      not modelled).
    - Log lines are not part of the state. *)

From Stdlib Require Import QArith Qabs.
From stdpp Require Import gmap strings list fin_maps pretty.

Open Scope string_scope.
Open Scope Z_scope.

(** ** Python values *)

#[warnings="-register-all"]
Inductive pyval : Type :=
  | PNone
  | PBool (b : bool)
  | PNum (q : Q)
  | PStr (s : string)
  | PList (l : list pyval)
  | PDict (d : list (string * pyval)).

Arguments PNum q%_Q.

Abbreviation pydict := (list (string * pyval)).

(** [d.get(k)] on a dict with string keys. *)
Fixpoint dict_get {V} (k : string) (d : list (string * V)) : option V :=
  match d with
  | [] => None
  | (k', v) :: d' => if String.eqb k' k then Some v else dict_get k d'
  end.

(** The same when [k] is a string or [None]; [None] is not a key. *)
Definition dict_get_key {V} (k : option string) (d : list (string * V)) : option V :=
  match k with
  | Some s => dict_get s d
  | None => None
  end.

(** [k in d] *)
Definition dict_has {V} (k : string) (d : list (string * V)) : bool :=
  match dict_get k d with Some _ => true | None => false end.

(** [list(d.keys())] *)
Definition dict_keys {V} (d : list (string * V)) : list string := map fst d.

(** Python truthiness: [if v:] *)
Definition truthy (v : pyval) : bool :=
  match v with
  | PNone => false
  | PBool b => b
  | PNum q => negb (Qeq_bool q 0)
  | PStr s => negb (String.eqb s "")
  | PList l => match l with [] => false | _ => true end
  | PDict d => match d with [] => false | _ => true end
  end.

Definition opt_str (s : option string) : pyval :=
  match s with Some x => PStr x | None => PNone end.

(** Outcome of a Python call: a value, or a raised exception with its text. *)
Inductive Res (A : Type) : Type :=
  | Ret (a : A)
  | Raise (msg : string).
Arguments Ret {A} a.
Arguments Raise {A} msg.

(** ** emotional_index_v3.py *)

Module EmotionalIndex.

Definition curiosity_entry : pydict :=
  [
    ("description", PStr "Viewer investigating unknown");
    ("camera", PDict [
       ("light", PDict [("movement", PStr "slow_zoom_in"); ("angle", PStr "eye_level"); ("speed", PNum 0.3); ("focal_length", PNum 35)]);
       ("medium", PDict [("movement", PStr "dolly_forward"); ("angle", PStr "slightly_low"); ("speed", PNum 0.5); ("focal_length", PNum 50)]);
       ("heavy", PDict [("movement", PStr "push_in_dramatic"); ("angle", PStr "dutch_tilt_15deg"); ("speed", PNum 0.8); ("focal_length", PNum 85)])]);
    ("color", PDict [
       ("light", PDict [("grade", PStr "neutral_cool"); ("saturation", PNum (-5)); ("contrast", PNum 1.05); ("vignette", PNum 0.1)]);
       ("medium", PDict [("grade", PStr "mystery_teal"); ("saturation", PNum (-10)); ("contrast", PNum 1.15); ("vignette", PNum 0.3)]);
       ("heavy", PDict [("grade", PStr "noir_blue"); ("saturation", PNum (-20)); ("contrast", PNum 1.35); ("vignette", PNum 0.5)])]);
    ("vfx", PDict [
       ("light", PList [PStr "subtle_glow_edges"]);
       ("medium", PList [PStr "light_rays"; PStr "dust_particles"]);
       ("heavy", PList [PStr "lens_flare_mystery"; PStr "depth_fog"; PStr "chromatic_aberration"])]);
    ("ffmpeg", PStr "zoompan=z='min(zoom+0.0015,1.5)':d=900,eq=saturation=0.9:contrast=1.15")].

Definition fear_entry : pydict :=
  [
    ("description", PStr "Viewer anticipating threat");
    ("camera", PDict [
       ("light", PDict [("movement", PStr "handheld_slight_shake"); ("angle", PStr "slightly_low"); ("speed", PNum 0.6); ("focal_length", PNum 24)]);
       ("medium", PDict [("movement", PStr "dutch_angle_creep"); ("angle", PStr "tilted_20deg"); ("speed", PNum 0.4); ("focal_length", PNum 35)]);
       ("heavy", PDict [("movement", PStr "erratic_handheld"); ("angle", PStr "extreme_dutch_45deg"); ("speed", PNum 1.0); ("focal_length", PNum 18)])]);
    ("color", PDict [
       ("light", PDict [("grade", PStr "slightly_desaturated"); ("saturation", PNum (-10)); ("contrast", PNum 1.10)]);
       ("medium", PDict [("grade", PStr "cold_blue_shadows"); ("saturation", PNum (-20)); ("contrast", PNum 1.25); ("vignette", PNum 0.4)]);
       ("heavy", PDict [("grade", PStr "horror_green_tint"); ("saturation", PNum (-30)); ("contrast", PNum 1.5); ("vignette", PNum 0.7)])]);
    ("vfx", PDict [
       ("light", PList [PStr "vignette_crawl"]);
       ("medium", PList [PStr "shadow_flicker"; PStr "screen_glitch"]);
       ("heavy", PList [PStr "chromatic_shift"; PStr "distortion_waves"; PStr "static_burst"])]);
    ("ffmpeg", PStr "transform='sin(2*PI*t*1.5)*5',eq=saturation=0.7:contrast=1.5,noise=alls=20:allf=t")].

Definition triumph_entry : pydict :=
  [
    ("description", PStr "Viewer experiencing victory");
    ("camera", PDict [
       ("light", PDict [("movement", PStr "slow_rise"); ("angle", PStr "slightly_low"); ("speed", PNum 0.5); ("focal_length", PNum 50)]);
       ("medium", PDict [("movement", PStr "crane_up_hero"); ("angle", PStr "low_angle_power"); ("speed", PNum 0.7); ("focal_length", PNum 35)]);
       ("heavy", PDict [("movement", PStr "drone_orbit_ascend"); ("angle", PStr "low_heroic"); ("speed", PNum 1.0); ("focal_length", PNum 24)])]);
    ("color", PDict [
       ("light", PDict [("grade", PStr "warm_lift"); ("saturation", PNum 10); ("contrast", PNum 1.05)]);
       ("medium", PDict [("grade", PStr "golden_hour"); ("saturation", PNum 20); ("contrast", PNum 1.15); ("bloom", PNum 0.2)]);
       ("heavy", PDict [("grade", PStr "epic_teal_orange"); ("saturation", PNum 35); ("contrast", PNum 1.30); ("bloom", PNum 0.4)])]);
    ("vfx", PDict [
       ("light", PList [PStr "soft_glow"]);
       ("medium", PList [PStr "light_rays_strong"; PStr "particle_sparkle"]);
       ("heavy", PList [PStr "epic_lens_flare"; PStr "light_streak"; PStr "particle_explosion"])]);
    ("ffmpeg", PStr "zoompan=z='1':y='max(ih-ih/zoom,0-t*40)':d=900,eq=saturation=1.35:contrast=1.3,flare=0.5:0.5:2.0")].

Definition tension_entry : pydict :=
  [
    ("description", PStr "Viewer on edge, awaiting resolution");
    ("camera", PDict [
       ("light", PDict [("movement", PStr "static_locked"); ("angle", PStr "eye_level_tight"); ("speed", PNum 0.0); ("focal_length", PNum 85)]);
       ("medium", PDict [("movement", PStr "micro_shake_anticipation"); ("angle", PStr "close_up"); ("speed", PNum 0.2); ("focal_length", PNum 100)]);
       ("heavy", PDict [("movement", PStr "zoom_in_aggressive"); ("angle", PStr "extreme_close_up"); ("speed", PNum 1.5); ("focal_length", PNum 135)])]);
    ("color", PDict [
       ("light", PDict [("grade", PStr "neutral_sharp"); ("saturation", PNum 0); ("contrast", PNum 1.15)]);
       ("medium", PDict [("grade", PStr "high_contrast_cold"); ("saturation", PNum (-15)); ("contrast", PNum 1.35)]);
       ("heavy", PDict [("grade", PStr "stark_black_white"); ("saturation", PNum (-50)); ("contrast", PNum 1.6); ("vignette", PNum 0.6)])]);
    ("vfx", PDict [
       ("light", PList [PStr "frame_jitter"]);
       ("medium", PList [PStr "time_remap_subtle"; PStr "sound_visualizer"]);
       ("heavy", PList [PStr "strobe_flash"; PStr "frame_skip"; PStr "reverse_time_glitch"])]);
    ("ffmpeg", PStr "zoompan=z='min(zoom+0.003,2.0)':d=900,eq=saturation=0.5:contrast=1.6,vignette='PI/4*0.6'")].

Definition wonder_entry : pydict :=
  [
    ("description", PStr "Viewer experiencing awe");
    ("camera", PDict [
       ("light", PDict [("movement", PStr "slow_pan_reveal"); ("angle", PStr "eye_level_wide"); ("speed", PNum 0.3); ("focal_length", PNum 24)]);
       ("medium", PDict [("movement", PStr "crane_rise_majestic"); ("angle", PStr "ascending"); ("speed", PNum 0.5); ("focal_length", PNum 35)]);
       ("heavy", PDict [("movement", PStr "orbital_360_slow"); ("angle", PStr "god_view_high"); ("speed", PNum 0.7); ("focal_length", PNum 16)])]);
    ("color", PDict [
       ("light", PDict [("grade", PStr "pastel_dream"); ("saturation", PNum 15); ("contrast", PNum 0.95)]);
       ("medium", PDict [("grade", PStr "ethereal_glow"); ("saturation", PNum 25); ("contrast", PNum 0.90); ("bloom", PNum 0.3)]);
       ("heavy", PDict [("grade", PStr "magic_hour_amplified"); ("saturation", PNum 40); ("contrast", PNum 0.85); ("bloom", PNum 0.6)])]);
    ("vfx", PDict [
       ("light", PList [PStr "soft_bokeh"]);
       ("medium", PList [PStr "particle_float"; PStr "light_beams_soft"]);
       ("heavy", PList [PStr "god_rays_volumetric"; PStr "particle_galaxy"; PStr "lens_orbs"])]);
    ("ffmpeg", PStr "eq=saturation=1.4:contrast=0.85:brightness=0.08,gblur=sigma=7:steps=4,flare=0.4:0.4:1.8")].

Definition urgency_entry : pydict :=
  [
    ("description", PStr "Viewer feeling time pressure");
    ("camera", PDict [
       ("light", PDict [("movement", PStr "quick_cuts_static"); ("angle", PStr "varying_rapid"); ("speed", PNum 2.0); ("focal_length", PNum 50)]);
       ("medium", PDict [("movement", PStr "chase_cam_forward"); ("angle", PStr "pov_handheld"); ("speed", PNum 3.0); ("focal_length", PNum 28)]);
       ("heavy", PDict [("movement", PStr "frenetic_multi_angle"); ("angle", PStr "extreme_pov"); ("speed", PNum 5.0); ("focal_length", PStr "variable")])]);
    ("color", PDict [
       ("light", PDict [("grade", PStr "high_contrast_warm"); ("saturation", PNum 5); ("contrast", PNum 1.20)]);
       ("medium", PDict [("grade", PStr "action_orange_crush"); ("saturation", PNum 15); ("contrast", PNum 1.40)]);
       ("heavy", PDict [("grade", PStr "explosive_color_pop"); ("saturation", PNum 30); ("contrast", PNum 1.60)])]);
    ("vfx", PDict [
       ("light", PList [PStr "speed_lines"]);
       ("medium", PList [PStr "motion_trails"; PStr "frame_blending"]);
       ("heavy", PList [PStr "strobe_cuts"; PStr "whip_transitions"; PStr "zoom_blur"])]);
    ("ffmpeg", PStr "eq=saturation=1.3:contrast=1.6,minterpolate='fps=120:mi_mode=mci',zoompan=z='if(eq(on,1),1.5,zoom-0.01)':d=1")].

Definition melancholy_entry : pydict :=
  [
    ("description", PStr "Viewer experiencing sadness/loss");
    ("camera", PDict [
       ("light", PDict [("movement", PStr "slow_dolly_back"); ("angle", PStr "eye_level_distant"); ("speed", PNum 0.2); ("focal_length", PNum 50)]);
       ("medium", PDict [("movement", PStr "crane_descend_slow"); ("angle", PStr "high_looking_down"); ("speed", PNum 0.3); ("focal_length", PNum 85)]);
       ("heavy", PDict [("movement", PStr "static_hold_long"); ("angle", PStr "isolated_wide"); ("speed", PNum 0.0); ("focal_length", PNum 24)])]);
    ("color", PDict [
       ("light", PDict [("grade", PStr "muted_cool"); ("saturation", PNum (-10)); ("contrast", PNum 0.95)]);
       ("medium", PDict [("grade", PStr "desaturated_blue"); ("saturation", PNum (-25)); ("contrast", PNum 0.85); ("vignette", PNum 0.3)]);
       ("heavy", PDict [("grade", PStr "monochrome_blue_tint"); ("saturation", PNum (-40)); ("contrast", PNum 0.75); ("vignette", PNum 0.6)])]);
    ("vfx", PDict [
       ("light", PList [PStr "rain_overlay_light"]);
       ("medium", PList [PStr "rain_medium"; PStr "window_droplets"]);
       ("heavy", PList [PStr "heavy_rain"; PStr "fog_dense"; PStr "chromatic_aberration_subtle"])]);
    ("ffmpeg", PStr "eq=saturation=0.6:contrast=0.75,colorchannelmixer=rr=0.3:rg=0.3:rb=0.4:gr=0.3:gg=0.3:gb=0.4:br=0.3:bg=0.3:bb=0.4,vignette='PI/4*0.6'")].

Definition romance_entry : pydict :=
  [
    ("description", PStr "Intimacy and affection (Tame/Hollywood Safe)");
    ("camera", PDict [
       ("light", PDict [("movement", PStr "static_two_shot"); ("angle", PStr "eye_level"); ("speed", PNum 0.0); ("focal_length", PNum 50)]);
       ("medium", PDict [("movement", PStr "slow_dolly_in"); ("angle", PStr "shoulder_level"); ("speed", PNum 0.2); ("focal_length", PNum 85)]);
       ("heavy", PDict [("movement", PStr "orbit_slow_close"); ("angle", PStr "eye_level_tight"); ("speed", PNum 0.3); ("focal_length", PNum 100)])]);
    ("color", PDict [
       ("light", PDict [("grade", PStr "warm_soft"); ("saturation", PNum 10); ("contrast", PNum 1.0); ("bloom", PNum 0.1)]);
       ("medium", PDict [("grade", PStr "golden_glow"); ("saturation", PNum 15); ("contrast", PNum 1.1); ("vignette", PNum 0.2)]);
       ("heavy", PDict [("grade", PStr "deep_passion"); ("saturation", PNum 20); ("contrast", PNum 1.2); ("blur_edges", PBool true)])]);
    ("vfx", PDict [
       ("light", PList [PStr "soft_glow_subtle"]);
       ("medium", PList [PStr "bokeh_particles"; PStr "light_leak_warm"]);
       ("heavy", PList [PStr "dreamy_haze"; PStr "heartbeat_vignette"])]);
    ("ffmpeg", PStr "eq=saturation=1.2:contrast=1.1,gblur=sigma=2:steps=1,vignette='PI/4*0.2'")].

Definition joy_entry : pydict :=
  [
    ("description", PStr "Happiness, humor, and comedy");
    ("camera", PDict [
       ("light", PDict [("movement", PStr "static_wide"); ("angle", PStr "eye_level"); ("speed", PNum 0.0); ("focal_length", PNum 35)]);
       ("medium", PDict [("movement", PStr "whip_pan_reveal"); ("angle", PStr "slightly_low"); ("speed", PNum 1.5); ("focal_length", PNum 24)]);
       ("heavy", PDict [("movement", PStr "snap_zoom_funny"); ("angle", PStr "high_angle_exaggerated"); ("speed", PNum 3.0); ("focal_length", PNum 18)])]);
    ("color", PDict [
       ("light", PDict [("grade", PStr "bright_natural"); ("saturation", PNum 5); ("contrast", PNum 1.0); ("brightness", PNum 0.05)]);
       ("medium", PDict [("grade", PStr "vibrant_pop"); ("saturation", PNum 20); ("contrast", PNum 1.1); ("brightness", PNum 0.1)]);
       ("heavy", PDict [("grade", PStr "candy_crush"); ("saturation", PNum 35); ("contrast", PNum 1.2); ("gamma", PNum 1.1)])]);
    ("vfx", PDict [
       ("light", PList [PStr "clean_sharp"]);
       ("medium", PList [PStr "confetti_subtle"; PStr "lens_flare_bright"]);
       ("heavy", PList [PStr "speed_lines_comic"; PStr "star_burst"])]);
    ("ffmpeg", PStr "eq=brightness=0.1:saturation=1.3:contrast=1.1")].

Definition nostalgia_entry : pydict :=
  [
    ("description", PStr "Sentimental memories and flashbacks");
    ("camera", PDict [
       ("light", PDict [("movement", PStr "handheld_gentle"); ("angle", PStr "eye_level"); ("speed", PNum 0.4); ("focal_length", PNum 50)]);
       ("medium", PDict [("movement", PStr "slow_pan_drift"); ("angle", PStr "varying"); ("speed", PNum 0.3); ("focal_length", PNum 35)]);
       ("heavy", PDict [("movement", PStr "floating_cam"); ("angle", PStr "subjective_pov"); ("speed", PNum 0.2); ("focal_length", PNum 28)])]);
    ("color", PDict [
       ("light", PDict [("grade", PStr "sepia_tint_light"); ("saturation", PNum (-10)); ("contrast", PNum 0.95); ("warmth", PNum 0.1)]);
       ("medium", PDict [("grade", PStr "faded_film"); ("saturation", PNum (-25)); ("contrast", PNum 0.9); ("grain", PNum 0.2)]);
       ("heavy", PDict [("grade", PStr "memory_lane"); ("saturation", PNum (-40)); ("contrast", PNum 0.85); ("blur", PNum 0.1); ("grain", PNum 0.4)])]);
    ("vfx", PDict [
       ("light", PList [PStr "dust_motes"]);
       ("medium", PList [PStr "film_grain_16mm"; PStr "vignette_soft"]);
       ("heavy", PList [PStr "film_burn"; PStr "projector_flicker"; PStr "heavy_grain"])]);
    ("ffmpeg", PStr "colorchannelmixer=.393:.769:.189:0:.349:.686:.168:0:.272:.534:.131,noise=alls=20:allf=t,vignette='PI/4*0.4'")].

Definition rage_entry : pydict :=
  [
    ("description", PStr "Anger, fury, and revenge");
    ("camera", PDict [
       ("light", PDict [("movement", PStr "static_tense"); ("angle", PStr "eye_level"); ("speed", PNum 0.0); ("focal_length", PNum 50)]);
       ("medium", PDict [("movement", PStr "shaky_cam_build"); ("angle", PStr "low_angle"); ("speed", PNum 1.0); ("focal_length", PNum 35)]);
       ("heavy", PDict [("movement", PStr "erratic_chaos"); ("angle", PStr "dutch_extreme"); ("speed", PNum 4.0); ("focal_length", PNum 24)])]);
    ("color", PDict [
       ("light", PDict [("grade", PStr "cold_steel"); ("saturation", PNum (-10)); ("contrast", PNum 1.2)]);
       ("medium", PDict [("grade", PStr "simmering_heat"); ("saturation", PNum 0); ("contrast", PNum 1.4); ("red_tint", PNum 0.1)]);
       ("heavy", PDict [("grade", PStr "seeing_red"); ("saturation", PNum 20); ("contrast", PNum 1.7); ("red_crush", PNum 0.3)])]);
    ("vfx", PDict [
       ("light", PList [PStr "heat_haze_subtle"]);
       ("medium", PList [PStr "camera_shake_impact"; PStr "distortion_edges"]);
       ("heavy", PList [PStr "chromatic_aberration_strong"; PStr "red_flash"; PStr "screen_tear"])]);
    ("ffmpeg", PStr "colorbalance=rs=0.2:rm=0.2:rh=0.2,eq=contrast=1.5:saturation=1.2,transform='sin(2*PI*t*10)*5'")].

Definition serenity_entry : pydict :=
  [
    ("description", PStr "Calm, peace, and nature");
    ("camera", PDict [
       ("light", PDict [("movement", PStr "static_locked"); ("angle", PStr "eye_level"); ("speed", PNum 0.0); ("focal_length", PNum 35)]);
       ("medium", PDict [("movement", PStr "slow_pan_landscape"); ("angle", PStr "wide_angle"); ("speed", PNum 0.1); ("focal_length", PNum 24)]);
       ("heavy", PDict [("movement", PStr "drone_hover"); ("angle", PStr "god_view"); ("speed", PNum 0.05); ("focal_length", PNum 16)])]);
    ("color", PDict [
       ("light", PDict [("grade", PStr "natural_balanced"); ("saturation", PNum 0); ("contrast", PNum 1.0)]);
       ("medium", PDict [("grade", PStr "cool_breeze"); ("saturation", PNum 5); ("contrast", PNum 0.95); ("blue_tint", PNum 0.05)]);
       ("heavy", PDict [("grade", PStr "zen_garden"); ("saturation", PNum 10); ("contrast", PNum 0.9); ("diffusion", PNum 0.2)])]);
    ("vfx", PDict [
       ("light", PList [PStr "clean_frame"]);
       ("medium", PList [PStr "mist_layer"; PStr "slow_particles"]);
       ("heavy", PList [PStr "god_rays_subtle"; PStr "water_shimmer"])]);
    ("ffmpeg", PStr "eq=contrast=0.95:saturation=1.1,colorbalance=bs=0.1")].

(** [EMOTIONAL_INDEX]: the twelve archetypes, in the order of the literal. *)
Definition EMOTIONAL_INDEX : list (string * pydict) :=
  [("curiosity", curiosity_entry);
   ("fear", fear_entry);
   ("triumph", triumph_entry);
   ("tension", tension_entry);
   ("wonder", wonder_entry);
   ("urgency", urgency_entry);
   ("melancholy", melancholy_entry);
   ("romance", romance_entry);
   ("joy", joy_entry);
   ("nostalgia", nostalgia_entry);
   ("rage", rage_entry);
   ("serenity", serenity_entry)].

(** [EmotionalIndexManager.get_all_emotions]: [list(self.index.keys())] *)
Definition get_all_emotions : list string := dict_keys EMOTIONAL_INDEX.

(** The dict inside a value.  Every ["camera"], ["color"] and ["vfx"] component
    of the catalogue is a dict (lemma [index_components_are_dicts]), so the
    second branch is never taken on it. *)
Definition as_dict (v : pyval) : pydict :=
  match v with PDict d => d | _ => [] end.

(** [profile.get(k, {}).get(intensity, dflt)] *)
Definition component (k : string) (intensity : option string) (dflt : pyval)
    (profile : pydict) : pyval :=
  default dflt
    (dict_get_key intensity (as_dict (default (PDict []) (dict_get k profile)))).

(** [EmotionalIndexManager.get_emotion_profile].  The arguments are strings,
    or [None] when the caller read them from a record that lacks the field. *)
Definition get_emotion_profile (emotion intensity : option string) : pydict :=
  match dict_get_key emotion EMOTIONAL_INDEX with
  | None => default [] (dict_get "curiosity" EMOTIONAL_INDEX)
  | Some profile =>
      [("emotion", opt_str emotion);
       ("intensity", opt_str intensity);
       ("description", default PNone (dict_get "description" profile));
       ("camera", component "camera" intensity (PDict []) profile);
       ("color", component "color" intensity (PDict []) profile);
       ("vfx", component "vfx" intensity (PList []) profile);
       ("ffmpeg", default (PStr "") (dict_get "ffmpeg" profile))]
  end.

End EmotionalIndex.

(** ** cinematography_engine.py *)

Module Cinematography.

(** [CinematographyEngine.filter_templates] *)
Definition filter_templates : list (string * string) :=
  [("slow_zoom_in",
    "zoompan=z='min(zoom+0.0015,1.5)':d=900:x='iw/2-(iw/zoom/2)':y='ih/2-(ih/zoom/2)':s=1920x1080");
   ("push_in_dramatic",
    "zoompan=z='min(zoom+0.003,2.0)':d=900:x='iw/2-(iw/zoom/2)':y='ih/2-(ih/zoom/2)':s=1920x1080");
   ("dolly_forward",
    "scale=iw*1.1:ih*1.1,crop=1920:1080");
   ("slow_rise",
    "zoompan=z='1':y='max(ih-ih/zoom,0-t*20)':d=900:s=1920x1080");
   ("crane_up_hero",
    "zoompan=z='1':y='max(ih-ih/zoom,0-t*40)':d=900:s=1920x1080");
   ("neutral_cool",
    "eq=saturation=0.95:contrast=1.05");
   ("mystery_teal",
    "eq=saturation=0.9:contrast=1.15,colorbalance=bs=0.1:gs=0.05");
   ("noir_blue",
    "eq=saturation=0.8:contrast=1.35,colorbalance=bs=0.2");
   ("warm_lift",
    "eq=saturation=1.1:contrast=1.05,colorbalance=rs=0.1:gs=0.05");
   ("golden_hour",
    "eq=saturation=1.2:contrast=1.15,colorbalance=rs=0.15:gs=0.1");
   ("epic_teal_orange",
    "eq=saturation=1.35:contrast=1.3,colorbalance=rs=0.2:bs=-0.1");
   ("lens_flare",
    "flare=0.5:0.5:2.0");
   ("vignette_light",
    "vignette='PI/4*0.2'");
   ("vignette_heavy",
    "vignette='PI/4*0.6'");
   ("chromatic_aberration",
    "chromakey=0.1");
   ("depth_fog",
    "gblur=sigma=5:steps=2");
   ("particle_glow",
    "eq=brightness=0.1");
   ("handheld_shake",
    "transform='sin(2*PI*t*2)*2'");
   ("dutch_tilt",
    "rotate=15*PI/180");
   ("screen_glitch",
    "noise=alls=20:allf=t");
   ("strobe_flash",
    "eq=brightness='if(lt(t,0.1),1.5,1.0)'");
   ("speed_lines",
    "scale=iw:ih,fps=120");
   ("motion_blur",
    "minterpolate='fps=120:mi_mode=mci'");
   ("zoom_blur",
    "zoompan=z='if(eq(on,1),1.5,zoom-0.01)':d=1")].

(** One element of the filter list.  The two formatted pieces keep the numbers
    they are formatted from; the final [",".join] is not rendered. *)
Inductive filter : Type :=
  | Template (text : string)
  | CustomGrade (saturation contrast : pyval)
  | Vignette (amount : pyval).

(** [v.get(...)]: only a dict has [get]. *)
Definition get_target (v : pyval) : Res pydict :=
  match v with
  | PDict d => Ret d
  | _ => Raise "AttributeError: object has no attribute 'get'"
  end.

(** [name in self.filter_templates]: the template, when [name] is one of the
    keys; a list or a dict cannot be hashed. *)
Definition template_of (name : pyval) : Res (option string) :=
  match name with
  | PStr s => Ret (dict_get s filter_templates)
  | PList _ | PDict _ => Raise "TypeError: unhashable type"
  | _ => Ret None
  end.

(** A Python number; [True] and [False] count as 1 and 0. *)
Definition as_number (v : pyval) : Res Q :=
  match v with
  | PNum q => Ret q
  | PBool b => Ret (if b then 1%Q else 0%Q)
  | _ => Raise "TypeError: unsupported operand type(s)"
  end.

Fixpoint characters (s : string) : list pyval :=
  match s with
  | EmptyString => []
  | String c s' => PStr (String c EmptyString) :: characters s'
  end.

(** [for effect in vfx]: the elements of a list, the keys of a dict, the
    characters of a string. *)
Definition iterate (v : pyval) : Res (list pyval) :=
  match v with
  | PList l => Ret l
  | PDict d => Ret (map (fun kv => PStr (fst kv)) d)
  | PStr s => Ret (characters s)
  | _ => Raise "TypeError: object is not iterable"
  end.

Definition res_bind {A B} (r : Res A) (k : A -> Res B) : Res B :=
  match r with
  | Ret a => k a
  | Raise msg => Raise msg
  end.

Fixpoint add_effects (effects : list pyval) (filters : list filter)
    : Res (list filter) :=
  match effects with
  | [] => Ret filters
  | effect :: rest =>
      res_bind (template_of effect) (fun t =>
        add_effects rest
          (match t with Some text => (filters ++ [Template text])%list | None => filters end))
  end.

(** [CinematographyEngine.generate_filter_chain]; the empty list stands for
    the string ["null"]. *)
Definition generate_filter_chain (profile : pydict) : Res (list filter) :=
  let filters : list filter := [] in
  res_bind (get_target (default (PDict []) (dict_get "camera" profile))) (fun camera =>
  res_bind (get_target (default (PDict []) (dict_get "color" profile))) (fun color =>
  let vfx := default (PList []) (dict_get "vfx" profile) in
  res_bind
    (let movement := default PNone (dict_get "movement" camera) in
     if truthy movement then
       res_bind (template_of movement) (fun t =>
         Ret (match t with Some text => (filters ++ [Template text])%list | None => filters end))
     else Ret filters) (fun filters =>
  res_bind
    (let grade := default PNone (dict_get "grade" color) in
     if truthy grade then
       res_bind (template_of grade) (fun t =>
         match t with
         | Some text => Ret (filters ++ [Template text])%list
         | None =>
             let saturation := default (PNum 0) (dict_get "saturation" color) in
             let contrast := default (PNum 1.0) (dict_get "contrast" color) in
             res_bind (as_number saturation) (fun _ =>
               Ret (filters ++ [CustomGrade saturation contrast])%list)
         end)
     else Ret filters) (fun filters =>
  let filters :=
    let vignette := default PNone (dict_get "vignette" color) in
    if truthy vignette then (filters ++ [Vignette vignette])%list else filters in
  res_bind (iterate vfx) (fun effects => add_effects effects filters))))).

Definition is_dict (v : pyval) : bool :=
  match v with PDict _ => true | _ => false end.

Definition is_list (v : pyval) : bool :=
  match v with PList _ => true | _ => false end.

(** [CinematographyEngine.validate_profile], on a profile that is a dict. *)
Definition validate_profile (profile : pydict) : bool * list string :=
  let required_keys := ["camera"; "color"; "vfx"] in
  let errors :=
    flat_map (fun key =>
      if dict_has key profile then [] else ["Missing required key: " +:+ key])
      required_keys in
  let camera := default (PDict []) (dict_get "camera" profile) in
  let errors :=
    match camera with
    | PDict c =>
        if dict_has "movement" c then errors
        else (errors ++ ["Camera must have 'movement' field"])%list
    | _ => (errors ++ ["Camera must be a dictionary"])%list
    end in
  let color := default (PDict []) (dict_get "color" profile) in
  let errors :=
    if is_dict color then errors else (errors ++ ["Color must be a dictionary"])%list in
  let vfx := default (PList []) (dict_get "vfx" profile) in
  let errors :=
    if is_list vfx then errors else (errors ++ ["VFX must be a list"])%list in
  (Nat.eqb (length errors) 0, errors).

(** Warnings of the quality gate, with the value that caused them. *)
Inductive warning : Type :=
  | HighSaturation (v : Q)
  | ContrastExceeds (v : Q)
  | VignetteTooHeavy (v : Q).

(** [QualityGateValidator.thresholds] *)
Definition max_contrast : Q := 2.0.
Definition max_vignette : Q := 0.8.

(** [a > b] on numbers *)
Definition Qgtb (a b : Q) : bool := negb (Qle_bool a b).

(** [QualityGateValidator.validate_output]; the argument is whatever the
    caller passes as [profile]. *)
Definition validate_output (profile : pyval) : Res (bool * list warning) :=
  res_bind (get_target profile) (fun profile =>
  res_bind (get_target (default (PDict []) (dict_get "color" profile))) (fun color =>
  res_bind (as_number (default (PNum 0) (dict_get "saturation" color))) (fun saturation =>
  let warnings : list warning :=
    if Qgtb (Qabs saturation) 50 then [HighSaturation saturation] else [] in
  res_bind (as_number (default (PNum 1.0) (dict_get "contrast" color))) (fun contrast =>
  let warnings :=
    if Qgtb contrast max_contrast then (warnings ++ [ContrastExceeds contrast])%list
    else warnings in
  res_bind (as_number (default (PNum 0) (dict_get "vignette" color))) (fun vignette =>
  let warnings :=
    if Qgtb vignette max_vignette then (warnings ++ [VignetteTooHeavy vignette])%list
    else warnings in
  Ret (Nat.leb (length warnings) 2, warnings)))))).

(** [sub in s] on strings *)
Fixpoint contains (sub s : string) : bool :=
  String.prefix sub s ||
  match s with
  | EmptyString => false
  | String _ s' => contains sub s'
  end.

(** [sum(1 for k in self.filter_templates if any(x in k for x in words))] *)
Definition count_templates (words : list string) : nat :=
  length (List.filter (fun k => existsb (fun x => contains x k) words)
            (dict_keys filter_templates)).

(** The dict that [get_filter_statistics] returns. *)
Record FilterStatistics : Type := mkFilterStatistics {
  total_templates : nat;
  camera_movements : nat;
  color_grades : nat;
  vfx_effects : nat;
  distortion_effects : nat;
  motion_effects : nat
}.

(** [CinematographyEngine.get_filter_statistics] *)
Definition get_filter_statistics : FilterStatistics :=
  mkFilterStatistics
    (length filter_templates)
    (count_templates ["zoom"; "dolly"; "pan"; "crane"])
    (count_templates ["cool"; "warm"; "golden"; "noir"; "epic"])
    (count_templates ["flare"; "vignette"; "glow"; "fog"; "glitch"])
    (count_templates ["shake"; "tilt"; "glitch"; "strobe"])
    (count_templates ["speed"; "blur"; "motion"]).

End Cinematography.

(** ** The keyed store and the clock *)

(** Field values of a hash.  [VNum] is a clock reading, [VMeta] the metadata
    dict of a job, [VPy] a value of the archetype catalogue. *)
Inductive value : Type :=
  | VStr (s : string)
  | VNum (t : Z)
  | VNone
  | VMeta (m : pydict)
  | VPy (v : pyval).

Abbreviation record := (gmap string value).

(** Hashes (state records), lists (queues) and expiry times in seconds.
    Expiry is recorded, the passing of 24 hours is not played out. *)
Record Store : Type := mkStore {
  hashes : gmap string (gmap string value);
  lists : gmap string (list (gmap string value));
  ttls : gmap string Z
}.

(** The store with its environment: [now] is the last clock reading, [ticks]
    the steps from each of the next readings to the one after it, negative
    when the clock is set back, [faults] tells for each of the next calls to
    the store whether it raises, and with which text.  When a schedule is used
    up the clock stands still and the calls succeed. *)
Record World : Type := mkWorld {
  store : Store;
  now : Z;
  ticks : list Z;
  faults : list (option string)
}.

(** Computations over a state [S] that may raise.  What was written before
    the exception stays written. *)
Definition M (S A : Type) : Type := S -> S * Res A.

Definition ret {S A} (a : A) : M S A := fun s => (s, Ret a).

Definition bind {S A B} (m : M S A) (k : A -> M S B) : M S B :=
  fun s =>
    match m s with
    | (s', Ret a) => k a s'
    | (s', Raise msg) => (s', Raise msg)
    end.

Definition raise {S A} (msg : string) : M S A := fun s => (s, Raise msg).

(** [try: m  except Exception as e: handler(str(e))] *)
Definition try_except {S A} (m : M S A) (handler : string -> M S A) : M S A :=
  fun s =>
    match m s with
    | (s', Ret a) => (s', Ret a)
    | (s', Raise msg) => handler msg s'
    end.

Definition lift_res {S A} (r : Res A) : M S A := fun s => (s, r).

Notation "x <- c1 ;; c2" := (bind c1 (fun x => c2))
  (at level 100, c1 at next level, right associativity).
Notation "c1 ;; c2" := (bind c1 (fun _ => c2))
  (at level 100, right associativity).

(** [for x in xs: body(x)] *)
Fixpoint for_each {S A} (xs : list A) (body : A -> M S unit) : M S unit :=
  match xs with
  | [] => ret tt
  | x :: xs' => body x ;; for_each xs' body
  end.

(** [for x in xs: acc = body(acc, x)] *)
Fixpoint fold_each {S A B} (xs : list A) (acc : B) (body : B -> A -> M S B) : M S B :=
  match xs with
  | [] => ret acc
  | x :: xs' => acc' <- body acc x ;; fold_each xs' acc' body
  end.

(** [time.time()] *)
Definition time_time : M World Z :=
  fun w =>
    let t := now w + hd 0 (ticks w) in
    (mkWorld (store w) t (tl (ticks w)) (faults w), Ret t).

(** One call to the store: it raises if the schedule says so, and otherwise
    runs [op]. *)
Definition store_call {A} (op : Store -> Store * A) : M World A :=
  fun w =>
    match hd None (faults w) with
    | Some msg => (mkWorld (store w) (now w) (ticks w) (tl (faults w)), Raise msg)
    | None =>
        let '(s', a) := op (store w) in
        (mkWorld s' (now w) (ticks w) (tl (faults w)), Ret a)
    end.

Module RedisClient.

Definition ping : M World unit :=
  store_call (fun s => (s, tt)).

(** The values that the client encodes: strings and numbers. *)
Definition encodable (v : value) : bool :=
  match v with
  | VStr _ | VNum _ => true
  | VPy (PStr _) | VPy (PNum _) => true
  | _ => false
  end.

Definition all_encodable (m : gmap string value) : bool :=
  forallb (fun field => encodable (snd field)) (map_to_list m).

(** The exception that the client raises for a value it does not encode; its
    text, which names the type of the value, is not modelled. *)
Definition DataError : string := "DataError".

(** [hset(key, mapping=m)]: the fields of [m] are merged into the hash.  The
    values are encoded first: when one of them is refused the call raises
    before anything is sent. *)
Definition hset (key : string) (m : gmap string value) : M World unit :=
  if all_encodable m then
    store_call (fun s =>
      (mkStore (<[key := m ∪ default ∅ (hashes s !! key)]> (hashes s)) (lists s) (ttls s),
       tt))
  else raise DataError.

Definition exists_key (key : string) (s : Store) : bool :=
  bool_decide (is_Some (hashes s !! key)) || bool_decide (is_Some (lists s !! key)).

(** [expire(key, seconds)] *)
Definition expire (key : string) (seconds : Z) : M World unit :=
  store_call (fun s =>
    (if exists_key key s
     then mkStore (hashes s) (lists s) (<[key := seconds]> (ttls s))
     else s, tt)).

(** [rpush(key, payload)] *)
Definition rpush (key : string) (payload : gmap string value) : M World unit :=
  store_call (fun s =>
    (mkStore (hashes s)
       (<[key := (default [] (lists s !! key) ++ [payload])%list]> (lists s))
       (ttls s), tt)).

(** [hgetall(key)]: the empty dict when there is no such hash. *)
Definition hgetall (key : string) : M World (gmap string value) :=
  store_call (fun s => (s, default ∅ (hashes s !! key))).

(** [llen(key)] *)
Definition llen (key : string) : M World nat :=
  store_call (fun s => (s, length (default [] (lists s !! key)))).

(** The keys that [scan_iter(match=prefix + "*")] yields. *)
Definition matching_keys (prefix : string) (s : Store) : list string :=
  filter (fun k => String.prefix prefix k = true)
    (elements (dom (hashes s) ∪ dom (lists s))).

Definition scan_iter (prefix : string) : M World (list string) :=
  store_call (fun s => (s, matching_keys prefix s)).

(** [delete(key)] *)
Definition delete_key (key : string) : M World unit :=
  store_call (fun s =>
    (mkStore (delete key (hashes s)) (delete key (lists s)) (delete key (ttls s)), tt)).

(** What a blocking pop comes to when no other client writes: an item, no
    item once the timeout has passed, or a wait that does not end. *)
Inductive popped : Type :=
  | Item (payload : gmap string value)
  | NoItem
  | Blocked.

(** [blpop(key, timeout=timeout)].  The head of the list is removed; a list
    that becomes empty is removed with its key.  On an empty list the call
    waits for [timeout] seconds, and without end when [timeout] is 0. *)
Definition blpop (key : string) (timeout : N) : M World popped :=
  store_call (fun s =>
    match default [] (lists s !! key) with
    | x :: [] =>
        (mkStore (hashes s) (delete key (lists s))
           (if bool_decide (is_Some (hashes s !! key)) then ttls s
            else delete key (ttls s)),
         Item x)
    | x :: rest => (mkStore (hashes s) (<[key := rest]> (lists s)) (ttls s), Item x)
    | [] => (s, if N.eqb timeout 0 then Blocked else NoItem)
    end).

End RedisClient.

(** ** redis_orchestrator.py *)

Module RedisOrchestrator.
Import RedisClient.

(** [ServiceStatus] *)
Inductive ServiceStatus : Type := IDLE | PROCESSING | COMPLETED | FAILED | PAUSED.

Definition status_value (s : ServiceStatus) : string :=
  match s with
  | IDLE => "idle"
  | PROCESSING => "processing"
  | COMPLETED => "completed"
  | FAILED => "failed"
  | PAUSED => "paused"
  end.

(** [self.queues], in the order of the literal. *)
Definition queues : list (string * string) :=
  [("oracle", "pipeline:queue:oracle");
   ("trickster", "pipeline:queue:trickster");
   ("cartographer", "pipeline:queue:cartographer");
   ("spectacle", "pipeline:queue:spectacle");
   ("ironist", "pipeline:queue:ironist");
   ("dlq", "pipeline:queue:dlq")].

(** [self.queues[service]] for a service that is one of the six keys. *)
Definition queue_key (service : string) : string :=
  default "" (dict_get service queues).

Definition state_prefix : string := "pipeline:state".

(** [f"{self.state_prefix}:{job_id}"] *)
Definition job_key (job_id : string) : string := state_prefix +:+ ":" +:+ job_id.

(** [PipelineJob], after [__post_init__]. *)
Record PipelineJob : Type := mkJob {
  job_id : string;
  video_id : option string;
  emotion : string;
  intensity : string;
  status : string;
  created_at : Z;
  started_at : option Z;
  completed_at : option Z;
  metadata : pydict
}.

Definition opt_value {A} (f : A -> value) (o : option A) : value :=
  match o with Some a => f a | None => VNone end.

(** [asdict(job)] *)
Definition asdict (job : PipelineJob) : gmap string value :=
  <["job_id" := VStr (job_id job)]>
  (<["video_id" := opt_value VStr (video_id job)]>
  (<["emotion" := VStr (emotion job)]>
  (<["intensity" := VStr (intensity job)]>
  (<["status" := VStr (status job)]>
  (<["created_at" := VNum (created_at job)]>
  (<["started_at" := opt_value VNum (started_at job)]>
  (<["completed_at" := opt_value VNum (completed_at job)]>
  (<["metadata" := VMeta (metadata job)]> ∅)))))))).

(** [f"{video_id}"] *)
Definition format_id (video_id : option string) : string :=
  default "None" video_id.

(** [f"{video_id}_{int(time.time() * 1000)}"] for the reading [t]. *)
Definition make_job_id (video_id : option string) (t : Z) : string :=
  format_id video_id +:+ "_" +:+ pretty (t `quot` 1000).

(** [RedisOrchestrator.submit_job] *)
Definition submit_job (video_id : option string) (emotion intensity : string)
    (metadata : option pydict) : M World string :=
  t <- time_time ;;
  let job_id := make_job_id video_id t in
  created <- time_time ;;
  let job := mkJob job_id video_id emotion intensity (status_value IDLE)
               created None None (default [] metadata) in
  let job_key := job_key job_id in
  hset job_key (asdict job) ;;
  expire job_key 86400 ;;
  rpush (queue_key "oracle") (asdict job) ;;
  ret job_id.

(** [RedisOrchestrator.get_job_status] *)
Definition get_job_status (job_id : string) : M World (option (gmap string value)) :=
  job_data <- hgetall (job_key job_id) ;;
  ret (if Nat.eqb (size job_data) 0 then None else Some job_data).

(** [if service:] and [if error:] on an optional string *)
Definition given (s : option string) : option string :=
  match s with
  | Some x => if String.eqb x "" then None else Some x
  | None => None
  end.

(** [RedisOrchestrator.update_job_status] *)
Definition update_job_status (job_id : string) (status : ServiceStatus)
    (service error : option string) : M World unit :=
  let job_key := job_key job_id in
  updated <- time_time ;;
  let update : gmap string value :=
    <["updated_at" := VNum updated]> (<["status" := VStr (status_value status)]> ∅) in
  update <-
    match status, given service, given error with
    | PROCESSING, Some service, _ =>
        started <- time_time ;;
        ret (<["started_at" := VNum started]>
             (<["current_service" := VStr service]> update))
    | COMPLETED, _, _ =>
        completed <- time_time ;;
        ret (<["completed_at" := VNum completed]> update)
    | FAILED, _, Some error =>
        ret (<["error" := VStr error]> update)
    | _, _, _ => ret update
    end ;;
  hset job_key update.

(** [RedisOrchestrator.move_to_dlq] *)
Definition move_to_dlq (job_id error : string) : M World unit :=
  job_data <- hgetall (job_key job_id) ;;
  if Nat.eqb (size job_data) 0 then ret tt
  else
    let job_data := <["error" := VStr error]> job_data in
    moved <- time_time ;;
    let job_data := <["moved_to_dlq_at" := VNum moved]> job_data in
    rpush (queue_key "dlq") job_data.

(** [RedisOrchestrator.get_queue_length] *)
Definition get_queue_length (service : string) : M World nat :=
  match dict_get service queues with
  | None => ret 0%nat
  | Some key => llen key
  end.

(** The dict that [health_check] returns. *)
Record Health : Type := mkHealth {
  redis_connected : bool;
  queues_accessible : bool;
  emotional_index_loaded : bool
}.

(** The second [try] block of [health_check]. *)
Definition check_queues : M World bool :=
  try_except
    (for_each queues (fun q => llen (snd q) ;; ret tt) ;; ret true)
    (fun _ => ret false).

(** The third [try] block of [health_check]. *)
Definition check_index : M World bool :=
  try_except
    (keys <- scan_iter "emotional_vertices:" ;;
     ret (Nat.leb 24 (length keys)))
    (fun _ => ret false).

(** [RedisOrchestrator.health_check] *)
Definition health_check : M World Health :=
  connected <- try_except (ping ;; ret true) (fun _ => ret false) ;;
  if negb connected then ret (mkHealth false false false)
  else
    accessible <- check_queues ;;
    loaded <- check_index ;;
    ret (mkHealth true accessible loaded).

(** [RedisOrchestrator.reset_pipeline] *)
Definition reset_pipeline (confirm : bool) : M World bool :=
  if negb confirm then ret false
  else
    try_except
      (for_each queues (fun q => delete_key (snd q)) ;;
       keys <- scan_iter (state_prefix +:+ ":") ;;
       for_each keys delete_key ;;
       ret true)
      (fun _ => ret false).

(** [RedisOrchestrator.__init__]: the connection test, which raises when the
    store cannot be reached. *)
Definition connect : M World unit := ping.

(** [RedisOrchestrator.enqueue] *)
Definition enqueue (service : string) (job_data : gmap string value) : M World bool :=
  match dict_get service queues with
  | None => ret false
  | Some queue_key => rpush queue_key job_data ;; ret true
  end.

(** [RedisOrchestrator.dequeue].  The result is the job data, [NoItem] for
    Python's [None], or [Blocked] when the call does not return. *)
Definition dequeue (service : string) (timeout : N) : M World popped :=
  match dict_get service queues with
  | None => ret NoItem
  | Some queue_key =>
      result <- blpop queue_key timeout ;;
      ret result
  end.

(** The dict that [get_pipeline_metrics] returns. *)
Record Metrics : Type := mkMetrics {
  timestamp : Z;
  queue_lengths : list (string * nat);
  total_jobs : nat;
  failed_jobs : nat
}.

(** [job_data.get("status", "unknown") == ServiceStatus.FAILED.value] *)
Definition says_failed (job_data : gmap string value) : bool :=
  match job_data !! "status" with
  | Some (VStr s) => String.eqb s (status_value FAILED)
  | _ => false
  end.

(** [RedisOrchestrator.get_pipeline_metrics] *)
Definition get_pipeline_metrics : M World Metrics :=
  timestamp <- time_time ;;
  lengths <-
    fold_each queues [] (fun lengths q =>
      length <- llen (snd q) ;;
      ret (lengths ++ [(fst q, length)])%list) ;;
  keys <- scan_iter (state_prefix +:+ ":") ;;
  counts <-
    fold_each keys (0%nat, 0%nat) (fun counts key =>
      job_data <- hgetall key ;;
      let failed := if says_failed job_data then S (snd counts) else snd counts in
      ret (S (fst counts), failed)) ;;
  ret (mkMetrics timestamp lengths (fst counts) (snd counts)).

End RedisOrchestrator.

(** ** emotional_index_v3.py: seeding the store *)

Module EmotionalIndexManager.
Import EmotionalIndex RedisClient.

(** [f"emotional_vertices:{emotion}:{intensity}"] *)
Definition vertex_key (emotion intensity : string) : string :=
  "emotional_vertices:" +:+ emotion +:+ ":" +:+ intensity.

(** [EmotionalIndexManager.seed_redis].  [client] tells whether a
    [redis_client] was given.  The mapping holds the values of the catalogue
    as they are: dicts for camera and color, a list for vfx. *)
Definition seed_redis (client : bool) : M World bool :=
  if negb client then ret false
  else
    for_each EMOTIONAL_INDEX (fun entry =>
      let '(emotion, profile) := entry in
      for_each ["light"; "medium"; "heavy"] (fun intensity =>
        let key := vertex_key emotion intensity in
        let value : gmap string value :=
          <["ffmpeg" := VPy (default (PStr "") (dict_get "ffmpeg" profile))]>
          (<["vfx" := VPy (component "vfx" (Some intensity) (PList []) profile)]>
          (<["color" := VPy (component "color" (Some intensity) (PDict []) profile)]>
          (<["camera" := VPy (component "camera" (Some intensity) (PDict []) profile)]>
             ∅))) in
        hset key value)) ;;
    ret true.

End EmotionalIndexManager.

(** ** pipeline_orchestrator.py *)

Module PipelineOrchestrator.
Import EmotionalIndex Cinematography RedisOrchestrator.

(** [self.stats]; the processing time is a difference of clock readings. *)
Record Stats : Type := mkStats {
  jobs_submitted : nat;
  jobs_completed : nat;
  jobs_failed : nat;
  total_processing_time : Z
}.

(** The state of a [PipelineOrchestrator]: the store behind
    [self.orchestrator] together with the clock, [self.redis_available],
    [self.config.enable_quality_gates] and [self.stats]. *)
Record Pipeline : Type := mkPipeline {
  world : World;
  redis_available : bool;
  enable_quality_gates : bool;
  stats : Stats
}.

(** A call on [self.orchestrator], or a reading of the clock. *)
Definition lift {A} (m : M World A) : M Pipeline A :=
  fun p =>
    let '(w', r) := m (world p) in
    (mkPipeline w' (redis_available p) (enable_quality_gates p) (stats p), r).

Definition update_stats (f : Stats -> Stats) : M Pipeline unit :=
  fun p =>
    (mkPipeline (world p) (redis_available p) (enable_quality_gates p) (f (stats p)),
     Ret tt).

Definition read {A} (f : Pipeline -> A) : M Pipeline A :=
  fun p => (p, Ret (f p)).

(** [x in xs] on strings *)
Definition member (x : string) (xs : list string) : bool :=
  existsb (String.eqb x) xs.

(** [PipelineOrchestrator.submit_video_job] *)
Definition submit_video_job (video_id : option string) (emotion intensity : string)
    (metadata : option pydict) : M Pipeline (option string) :=
  try_except
    (if negb (member emotion get_all_emotions) then ret None
     else if negb (member intensity ["light"; "medium"; "heavy"]) then ret None
     else
       let profile := get_emotion_profile (Some emotion) (Some intensity) in
       let '(is_valid, errors) := validate_profile profile in
       if negb is_valid then ret None
       else
         available <- read redis_available ;;
         job_id <-
           (if available
            then lift (submit_job video_id emotion intensity metadata)
            else t <- lift time_time ;; ret (make_job_id video_id t)) ;;
         update_stats (fun s =>
           mkStats (S (jobs_submitted s)) (jobs_completed s) (jobs_failed s)
             (total_processing_time s)) ;;
         ret (Some job_id))
    (fun _ => ret None).

(** [job_status.get(field)]: the string stored under [field], if any. *)
Definition get_str (field : string) (job_status : gmap string value) : option string :=
  match job_status !! field with
  | Some (VStr s) => Some s
  | _ => None
  end.

(** [PipelineOrchestrator.process_job] *)
Definition process_job (job_id : string) : M Pipeline bool :=
  try_except
    (start_time <- lift time_time ;;
     available <- read redis_available ;;
     if negb available then ret false
     else
       job_status <- lift (get_job_status job_id) ;;
       match job_status with
       | None => ret false
       | Some job_status =>
           let emotion := get_str "emotion" job_status in
           let intensity := get_str "intensity" job_status in
           (* Stage 1: Oracle *)
           lift (update_job_status job_id PROCESSING (Some "oracle") None) ;;
           (* Stage 2: Trickster *)
           lift (update_job_status job_id PROCESSING (Some "trickster") None) ;;
           (* Stage 3: Cartographer *)
           lift (update_job_status job_id PROCESSING (Some "cartographer") None) ;;
           let profile := get_emotion_profile emotion intensity in
           filter_chain <- lift_res (generate_filter_chain profile) ;;
           (* Stage 4: Spectacle *)
           lift (update_job_status job_id PROCESSING (Some "spectacle") None) ;;
           (* Stage 5: Ironist *)
           lift (update_job_status job_id PROCESSING (Some "ironist") None) ;;
           gates <- read enable_quality_gates ;;
           (if gates
            then lift_res (validate_output (default (PDict []) (dict_get "color" profile))) ;;
                 ret tt
            else ret tt) ;;
           (* Stages 6 to 8 only log *)
           finish <- lift time_time ;;
           let elapsed := finish - start_time in
           lift (update_job_status job_id COMPLETED None None) ;;
           update_stats (fun s =>
             mkStats (jobs_submitted s) (S (jobs_completed s)) (jobs_failed s)
               (total_processing_time s + elapsed)) ;;
           ret true
       end)
    (fun e =>
       update_stats (fun s =>
         mkStats (jobs_submitted s) (jobs_completed s) (S (jobs_failed s))
           (total_processing_time s)) ;;
       available <- read redis_available ;;
       (if available then lift (move_to_dlq job_id e) else ret tt) ;;
       ret false).

(** The dict that [batch_process] returns. *)
Record BatchResults : Type := mkResults {
  total : nat;
  successful : nat;
  failed : nat;
  job_ids : list string
}.

Definition count_success (r : BatchResults) : BatchResults :=
  mkResults (total r) (S (successful r)) (failed r) (job_ids r).

Definition count_failure (r : BatchResults) : BatchResults :=
  mkResults (total r) (successful r) (S (failed r)) (job_ids r).

Definition add_job_id (job_id : string) (r : BatchResults) : BatchResults :=
  mkResults (total r) (successful r) (failed r) (job_ids r ++ [job_id])%list.

(** The loop of [batch_process]; a job specification is a dict of strings. *)
Fixpoint batch_loop (jobs : list (gmap string string)) (results : BatchResults)
    : M Pipeline BatchResults :=
  match jobs with
  | [] => ret results
  | job_spec :: rest =>
      let video_id := job_spec !! "video_id" in
      let emotion := default "curiosity" (job_spec !! "emotion") in
      let intensity := default "medium" (job_spec !! "intensity") in
      job_id <- submit_video_job video_id emotion intensity None ;;
      results <-
        match given job_id with
        | Some job_id =>
            let results := add_job_id job_id results in
            ok <- process_job job_id ;;
            ret (if ok then count_success results else count_failure results)
        | None => ret (count_failure results)
        end ;;
      batch_loop rest results
  end.

(** [PipelineOrchestrator.batch_process] *)
Definition batch_process (jobs : list (gmap string string)) : M Pipeline BatchResults :=
  batch_loop jobs (mkResults (length jobs) 0 0 []).

(** [PipelineOrchestrator.__init__]: the state of a new orchestrator over
    the world [w], with [enable_quality_gates] as the configuration has it.
    When the connection test raises, the orchestrator starts without store. *)
Definition init (quality_gates : bool) (w : World) : Pipeline :=
  match connect w with
  | (w', Ret _) => mkPipeline w' true quality_gates (mkStats 0 0 0 0)
  | (w', Raise _) => mkPipeline w' false quality_gates (mkStats 0 0 0 0)
  end.

(** The dict that [get_pipeline_status] returns; [metrics] and [health] are
    present when the store is available. *)
Record PipelineStatus : Type := mkStatus {
  status_redis_available : bool;
  emotional_archetypes : nat;
  filter_templates_statistics : FilterStatistics;
  statistics : Stats;
  metrics : option Metrics;
  health : option Health
}.

(** [PipelineOrchestrator.get_pipeline_status] *)
Definition get_pipeline_status : M Pipeline PipelineStatus :=
  available <- read redis_available ;;
  statistics <- read stats ;;
  let archetypes := length get_all_emotions in
  if available then
    metrics <- lift get_pipeline_metrics ;;
    health <- lift health_check ;;
    ret (mkStatus available archetypes get_filter_statistics statistics
           (Some metrics) (Some health))
  else
    ret (mkStatus available archetypes get_filter_statistics statistics None None).

(** [PipelineOrchestrator.validate_pipeline] *)
Definition validate_pipeline : M Pipeline (bool * list string) :=
  let issues : list string := [] in
  let emotions := get_all_emotions in
  let issues :=
    if negb (Nat.eqb (length emotions) 12)
    then (issues ++ ["Expected 12 emotions, found " +:+ pretty (length emotions)])%list
    else issues in
  let stats := get_filter_statistics in
  let issues :=
    if Nat.eqb (total_templates stats) 0
    then (issues ++ ["No filter templates available"])%list
    else issues in
  available <- read redis_available ;;
  issues <-
    (if negb available
     then ret (issues ++ ["Redis unavailable (optional, local mode available)"])%list
     else
       health <- lift health_check ;;
       let issues :=
         if negb (redis_connected health)
         then (issues ++ ["Redis connection failed"])%list else issues in
       let issues :=
         if negb (queues_accessible health)
         then (issues ++ ["Redis queues not accessible"])%list else issues in
       ret issues) ;;
  ret (Nat.eqb (length issues) 0, issues).

End PipelineOrchestrator.

(** ** Vocabulary of the statements *)

Module Vocabulary.
Import EmotionalIndex Cinematography RedisClient RedisOrchestrator PipelineOrchestrator.



(** The next [n] calls to the store succeed. *)
Fixpoint calls_ok (n : nat) (fs : list (option string)) : Prop :=
  match n, fs with
  | O, _ => True
  | S _, [] => True
  | S n', None :: fs' => calls_ok n' fs'
  | S _, Some _ :: _ => False
  end.

(** No call to the store fails from now on. *)
Definition no_faults (fs : list (option string)) : Prop :=
  forall n, calls_ok n fs.

(** The world after one successful call that leaves the store as [s]. *)
Definition after_call (s : Store) (w : World) : World :=
  mkWorld s (now w) (ticks w) (tl (faults w)).

(** The status stored for a job, if any. *)
Definition stored_status (job_id : string) (w : World) : option value :=
  hashes (store w) !! job_key job_id ≫= (.!! "status").

(** The state machine as the specification words it: Idle to Processing,
    Processing to Completed or Failed, Processing to Paused and back.  The
    code has no counterpart of this relation. *)
Definition spec_transition (from to : ServiceStatus) : bool :=
  match from, to with
  | IDLE, PROCESSING
  | PROCESSING, COMPLETED
  | PROCESSING, FAILED
  | PROCESSING, PAUSED
  | PAUSED, PROCESSING => true
  | _, _ => false
  end.

(** The record of the job, if there is one, does not say failed. *)
Definition not_failed (job_id : string) (w : World) : Prop :=
  stored_status job_id w <> Some (VStr (status_value FAILED)).

(** Whatever its outcome, the computation [m] keeps the property [I] of the
    state. *)
Definition preserves {S A} (I : S -> Prop) (m : M S A) : Prop :=
  forall s s' r, m s = (s', r) -> I s -> I s'.

(** The clock is not set back before any of the next [n] readings. *)
Fixpoint steady (n : nat) (ts : list Z) : Prop :=
  match n, ts with
  | O, _ => True
  | S _, [] => True
  | S n', t :: ts' => 0 <= t /\ steady n' ts'
  end.

(** The world after one reading of the clock. *)
Definition tick (w : World) : World := fst (time_time w).




(** What the list under [key] holds, oldest element first. *)
Definition queue_content (key : string) (w : World) : list (gmap string value) :=
  default [] (lists (store w) !! key).

(** The six names that have a queue. *)
Definition services : list string :=
  ["oracle"; "trickster"; "cartographer"; "spectacle"; "ironist"; "dlq"].

(** The store is [s], as it was before. *)
Definition store_is (s : Store) (w : World) : Prop := store w = s.

(** The keys of the state records, as a scan finds them. *)
Definition state_keys (s : Store) : list string :=
  matching_keys (state_prefix +:+ ":") s.

(** The keys of the seeded index, as a scan finds them. *)
Definition index_keys (s : Store) : list string :=
  matching_keys "emotional_vertices:" s.

(** A filter that is a template comes from [filter_templates]. *)
Definition from_templates (f : filter) : Prop :=
  match f with
  | Template text => exists key, dict_get key filter_templates = Some text
  | _ => True
  end.

End Vocabulary.

(** ** Sample states *)

Module Samples.
Import RedisOrchestrator PipelineOrchestrator.

Definition empty_store : Store := mkStore ∅ ∅ ∅.

(** An empty store that never fails, with a clock that advances. *)
Definition fresh_world : World :=
  mkWorld empty_store 1700000000000000 [1500; 20; 300; 4000; 50; 600; 7; 80; 9] [].

Definition fresh_pipeline : Pipeline :=
  mkPipeline fresh_world true true (mkStats 0 0 0 0).

Definition sample_job_id : string := "video_001_1700000000001".

(** The job that [submit_job("video_001", "curiosity", "medium")] builds. *)
Definition sample_job : PipelineJob :=
  mkJob sample_job_id (Some "video_001") "curiosity" "medium" (status_value IDLE)
    1700000000001520 None None [].

(** The fields of that job that are strings and numbers. *)
Definition sample_record : gmap string value :=
  <["job_id" := VStr sample_job_id]>
  (<["video_id" := VStr "video_001"]>
  (<["emotion" := VStr "curiosity"]>
  (<["intensity" := VStr "medium"]>
  (<["status" := VStr (status_value IDLE)]>
  (<["created_at" := VNum 1700000000001520]> ∅))))).

(** A store that holds this job: its record with the expiry of 24 hours, and
    its snapshot on the oracle queue. *)
Definition submitted_pipeline : Pipeline :=
  Eval vm_compute in
  mkPipeline
    (mkWorld
       (mkStore {[job_key sample_job_id := sample_record]}
          {[queue_key "oracle" := [asdict sample_job]]}
          {[job_key sample_job_id := 86400]})
       1700000000001520 [300; 4000; 50; 600; 7; 80; 9] [])
    true true (mkStats 0 0 0 0).

(** The state after [process_job] on that job. *)
Definition completed_pipeline : Pipeline :=
  Eval vm_compute in
  fst (process_job sample_job_id submitted_pipeline).

(** The keys of the index in the store. *)
Definition seed_keys : list string :=
  flat_map (fun emotion =>
    map (fun intensity => "emotional_vertices:" +:+ emotion +:+ ":" +:+ intensity)
      ["light"; "medium"; "heavy"]) EmotionalIndex.get_all_emotions.

Definition seeded_store : Store :=
  mkStore (list_to_map (map (fun k => (k, {["ffmpeg" := VStr ""]})) seed_keys)) ∅ ∅.

(** Only the next call to the store fails. *)
Definition ping_down_world : World :=
  mkWorld seeded_store 1700000000000000 [] [Some "Connection refused"; None; None].

(** Only the second call to the store fails. *)
Definition queue_down_world : World :=
  mkWorld seeded_store 1700000000000000 [] [None; Some "Connection reset"].

(** The sample job, in a world where the third call to the store fails:
    the write of the second stage. *)
Definition stage_fault_pipeline : Pipeline :=
  mkPipeline
    (mkWorld (store (world submitted_pipeline)) (now (world submitted_pipeline))
       (ticks (world submitted_pipeline))
       [None; None; Some "Connection reset by peer"])
    true true (stats submitted_pipeline).

(** The sample job, in a world where the store is lost: the next two calls
    fail. *)
Definition outage_pipeline : Pipeline :=
  mkPipeline
    (mkWorld (store (world submitted_pipeline)) (now (world submitted_pipeline))
       (ticks (world submitted_pipeline))
       [Some "Connection lost"; Some "Connection lost"])
    true true (stats submitted_pipeline).


Definition two_jobs : list (gmap string string) :=
  [{["video_id" := "video_001"]}; {["video_id" := "video_002"]}].

End Samples.

(** * Properties *)

Import EmotionalIndex Cinematography RedisClient RedisOrchestrator PipelineOrchestrator.
Import EmotionalIndexManager Vocabulary Samples.

(** ** The archetype catalogue *)

Section Catalogue.

Lemma dict_get_None {V} (k : string) (d : list (string * V)) :
  ~ In k (dict_keys d) -> dict_get k d = None.
Proof.
  induction d as [|[k' v] d IH]; simpl; [reflexivity|].
  intros Hnot. destruct (String.eqb_spec k' k) as [->|_].
  - exfalso. apply Hnot. now left.
  - apply IH. intros Hin. apply Hnot. now right.
Qed.

Lemma dict_get_In {V} (k : string) (d : list (string * V)) (v : V) :
  dict_get k d = Some v -> In (k, v) d.
Proof.
  induction d as [|[k' v'] d IH]; simpl; [discriminate|].
  destruct (String.eqb_spec k' k) as [->|_].
  - intros [= ->]. now left.
  - intros H. right. now apply IH.
Qed.

Lemma member_In (x : string) (xs : list string) :
  member x xs = true <-> In x xs.
Proof.
  unfold member. rewrite existsb_exists. split.
  - intros (y & Hy & Heq). apply String.eqb_eq in Heq. now subst.
  - intros Hin. exists x. split; [assumption|apply String.eqb_refl].
Qed.

Lemma member_not_In (x : string) (xs : list string) :
  ~ In x xs -> member x xs = false.
Proof.
  intros Hnot. destruct (member x xs) eqn:E; [|reflexivity].
  apply member_In in E. contradiction.
Qed.

Lemma get_all_emotions_eq :
  get_all_emotions =
  ["curiosity"; "fear"; "triumph"; "tension"; "wonder"; "urgency"; "melancholy";
   "romance"; "joy"; "nostalgia"; "rage"; "serenity"].
Proof. reflexivity. Qed.

Lemma twelve_archetypes : length get_all_emotions = 12%nat.
Proof. reflexivity. Qed.

(** Every component that [get_emotion_profile] selects from is a dict, so
    [as_dict] never meets anything else on the catalogue. *)
Lemma index_components_are_dicts :
  Forall (fun entry =>
    Forall (fun k => exists d, dict_get k (snd entry) = Some (PDict d))
      ["camera"; "color"; "vfx"]) EMOTIONAL_INDEX.
Proof.
  unfold EMOTIONAL_INDEX.
  repeat (constructor; [repeat (constructor; [eexists; reflexivity|]); constructor|]).
  constructor.
Qed.

(** C8. For each of the twelve archetypes and each of the three intensities,
    the profile that [get_emotion_profile] returns has a ["camera"] dict, a
    ["color"] dict and a ["vfx"] list, and none of the three is empty. *)
Theorem profile_components_nonempty (emotion intensity : string) :
  In emotion get_all_emotions ->
  In intensity ["light"; "medium"; "heavy"] ->
  exists camera color vfx,
    let profile := get_emotion_profile (Some emotion) (Some intensity) in
    dict_get "camera" profile = Some (PDict camera) /\ camera <> [] /\
    dict_get "color" profile = Some (PDict color) /\ color <> [] /\
    dict_get "vfx" profile = Some (PList vfx) /\ vfx <> [].
Proof.
  rewrite get_all_emotions_eq. intros He Hi.
  simpl in He, Hi.
  repeat (destruct He as [<-|He]; [|]); try contradiction;
    (repeat (destruct Hi as [<-|Hi]; [|]); try contradiction;
     vm_compute; do 3 eexists; repeat split; discriminate).
Qed.

Lemma profile_components_nonempty_witness :
  In "joy" get_all_emotions /\
  In "heavy" ["light"; "medium"; "heavy"] /\
  exists camera color vfx,
    let profile := get_emotion_profile (Some "joy") (Some "heavy") in
    dict_get "camera" profile = Some (PDict camera) /\ camera <> [] /\
    dict_get "color" profile = Some (PDict color) /\ color <> [] /\
    dict_get "vfx" profile = Some (PList vfx) /\ vfx <> [].
Proof.
  assert (He : In "joy" get_all_emotions) by (vm_compute; tauto).
  assert (Hi : In "heavy" ["light"; "medium"; "heavy"]) by (vm_compute; tauto).
  split; [exact He|]. split; [exact Hi|].
  exact (profile_components_nonempty "joy" "heavy" He Hi).
Defined.

(** C9. For an emotion name outside the index, [get_emotion_profile] does not
    fail: it returns the catalogue entry of curiosity as it stands, which has
    no ["emotion"] and no ["intensity"] field and whose camera, color and vfx
    components still hold all three intensities.  For a name in the index the
    result has the seven fields of a selected profile instead. *)
Theorem unknown_emotion_returns_raw_curiosity (emotion : string)
    (intensity : option string) :
  (~ In emotion get_all_emotions ->
   let profile := get_emotion_profile (Some emotion) intensity in
   profile = curiosity_entry /\
   dict_has "emotion" profile = false /\
   dict_has "intensity" profile = false /\
   Forall (fun k => exists d, dict_get k profile = Some (PDict d) /\
                              dict_keys d = ["light"; "medium"; "heavy"])
     ["camera"; "color"; "vfx"]) /\
  (In emotion get_all_emotions ->
   dict_keys (get_emotion_profile (Some emotion) intensity) =
   ["emotion"; "intensity"; "description"; "camera"; "color"; "vfx"; "ffmpeg"]).
Proof.
  split.
  - intros Hnot. unfold get_emotion_profile, dict_get_key.
    rewrite (dict_get_None _ _ Hnot). simpl.
    split; [reflexivity|]. split; [reflexivity|]. split; [reflexivity|].
    repeat (constructor; [eexists; split; reflexivity|]).
    constructor.
  - intros Hin. unfold get_emotion_profile, dict_get_key.
    destruct (dict_get emotion EMOTIONAL_INDEX) as [profile|] eqn:E.
    + reflexivity.
    + exfalso. rewrite get_all_emotions_eq in Hin. simpl in Hin.
      repeat (destruct Hin as [<-|Hin]; [vm_compute in E; discriminate|]).
      contradiction.
Qed.

Lemma unknown_emotion_returns_raw_curiosity_witness :
  (~ In "not_an_emotion" get_all_emotions /\
   get_emotion_profile (Some "not_an_emotion") (Some "medium") = curiosity_entry) /\
  (In "rage" get_all_emotions /\
   dict_keys (get_emotion_profile (Some "rage") (Some "medium")) =
   ["emotion"; "intensity"; "description"; "camera"; "color"; "vfx"; "ffmpeg"]).
Proof.
  assert (Hout : ~ In "not_an_emotion" get_all_emotions).
  { vm_compute. intuition discriminate. }
  assert (Hin : In "rage" get_all_emotions) by (vm_compute; tauto).
  destruct (unknown_emotion_returns_raw_curiosity "not_an_emotion" (Some "medium"))
    as [Hraw _].
  destruct (unknown_emotion_returns_raw_curiosity "rage" (Some "medium"))
    as [_ Hsel].
  split; split; try assumption.
  - exact (proj1 (Hraw Hout)).
  - exact (Hsel Hin).
Defined.

End Catalogue.

(** ** The work of the stages never raises *)

Section StageWork.

(** In every entry the three components are keyed by the three intensities. *)
Lemma index_components_keys :
  Forall (fun entry =>
    Forall (fun k => exists d, dict_get k (snd entry) = Some (PDict d) /\
                               dict_keys d = ["light"; "medium"; "heavy"])
      ["camera"; "color"; "vfx"]) EMOTIONAL_INDEX.
Proof.
  unfold EMOTIONAL_INDEX.
  repeat (constructor;
          [repeat (constructor; [eexists; split; reflexivity|]); constructor|]).
  constructor.
Qed.

Lemma component_default (e : string) (profile : pydict) (k : string)
    (intensity : option string) (dflt : pyval) :
  dict_get e EMOTIONAL_INDEX = Some profile ->
  In k ["camera"; "color"; "vfx"] ->
  (forall i, intensity = Some i -> ~ In i ["light"; "medium"; "heavy"]) ->
  component k intensity dflt profile = dflt.
Proof.
  intros He Hk Hi. apply dict_get_In in He.
  pose proof index_components_keys as Hall.
  rewrite List.Forall_forall in Hall. specialize (Hall _ He). simpl in Hall.
  rewrite List.Forall_forall in Hall. destruct (Hall _ Hk) as (d & Hd & Hkeys).
  unfold component. rewrite Hd. simpl.
  destruct intensity as [i|]; simpl; [|reflexivity].
  rewrite dict_get_None; [reflexivity|]. rewrite Hkeys. now apply Hi.
Qed.



End StageWork.

(** ** Calls to the store *)

Section StoreCalls.

Lemma calls_ok_nil (n : nat) : calls_ok n [].
Proof. destruct n; exact I. Qed.

Lemma calls_ok_next (n : nat) (fs : list (option string)) :
  calls_ok (S n) fs -> hd None fs = None /\ calls_ok n (tl fs).
Proof.
  destruct fs as [|[msg|] fs]; simpl.
  - intros _. split; [reflexivity|apply calls_ok_nil].
  - intros [].
  - intros H. split; [reflexivity|exact H].
Qed.

Lemma calls_ok_le (n m : nat) (fs : list (option string)) :
  (m <= n)%nat -> calls_ok n fs -> calls_ok m fs.
Proof.
  revert m fs. induction n as [|n IH]; intros m fs Hle H.
  - replace m with O by lia. exact I.
  - destruct m as [|m]; [exact I|].
    destruct fs as [|[msg|] fs]; simpl in *; try exact H.
    apply IH; [lia|exact H].
Qed.

Lemma no_faults_next (fs : list (option string)) :
  no_faults fs -> hd None fs = None /\ no_faults (tl fs).
Proof.
  intros H. split.
  - exact (proj1 (calls_ok_next 0 fs (H 1%nat))).
  - intros n. exact (proj2 (calls_ok_next n fs (H (S n)))).
Qed.

Lemma store_call_ok {A} (op : Store -> Store * A) (w : World) :
  hd None (faults w) = None ->
  store_call op w = (after_call (op (store w)).1 w, Ret (op (store w)).2).
Proof.
  intros H. unfold store_call, after_call. rewrite H.
  destruct (op (store w)) as [s' a]. reflexivity.
Qed.

Lemma store_call_fault {A} (op : Store -> Store * A) (w : World) (msg : string) :
  hd None (faults w) = Some msg ->
  store_call op w = (after_call (store w) w, Raise msg).
Proof. intros H. unfold store_call, after_call. now rewrite H. Qed.

Lemma all_encodable_intro (m : gmap string value) :
  map_Forall (fun _ v => encodable v = true) m -> all_encodable m = true.
Proof.
  intros H. unfold all_encodable. apply forallb_forall. intros [k v] Hin.
  apply (H k v). apply elem_of_map_to_list, list_elem_of_In. exact Hin.
Qed.

Lemma all_encodable_refused (m : gmap string value) (k : string) (v : value) :
  m !! k = Some v -> encodable v = false -> all_encodable m = false.
Proof.
  intros Hk Hv. unfold all_encodable.
  destruct (forallb _ _) eqn:E; [|reflexivity].
  rewrite forallb_forall in E.
  assert (Hin : In (k, v) (map_to_list m)).
  { apply list_elem_of_In, elem_of_map_to_list. exact Hk. }
  apply E in Hin. cbn [snd] in Hin. congruence.
Qed.

Lemma hset_accepted (key : string) (m : gmap string value) (w : World) :
  map_Forall (fun _ v => encodable v = true) m ->
  hset key m w =
  store_call (fun s =>
    (mkStore (<[key := m ∪ default ∅ (hashes s !! key)]> (hashes s)) (lists s) (ttls s),
     tt)) w.
Proof. intros H. unfold hset. now rewrite (all_encodable_intro m H). Qed.

Lemma hset_refused (key : string) (m : gmap string value) (k : string) (v : value)
    (w : World) :
  m !! k = Some v -> encodable v = false -> hset key m w = (w, Raise DataError).
Proof.
  intros Hk Hv. unfold hset. now rewrite (all_encodable_refused m k v Hk Hv).
Qed.

End StoreCalls.

(** ** Steps of a run *)

Section Runs.

Lemma time_time_eq (w : World) : time_time w = (tick w, Ret (now (tick w))).
Proof. reflexivity. Qed.

Lemma tick_reading (w : World) : now (tick w) = now w + hd 0 (ticks w).
Proof. reflexivity. Qed.

Lemma steady_next (n : nat) (ts : list Z) :
  steady (S n) ts -> 0 <= hd 0 ts /\ steady n (tl ts).
Proof.
  destruct ts as [|t ts]; cbn [steady hd tl].
  - intros _. split; [lia|]. destruct n; exact I.
  - tauto.
Qed.

(** A reading of a clock that is not set back is not below the last one. *)
Lemma tick_steady (n : nat) (w : World) :
  steady (S n) (ticks w) -> now w <= now (tick w) /\ steady n (ticks (tick w)).
Proof.
  intros H. apply steady_next in H as [H0 H1].
  split; [rewrite tick_reading; lia|exact H1].
Qed.

Lemma bind_ret_eq {S A B} (m : M S A) (k : A -> M S B) (s s' : S) (a : A) :
  m s = (s', Ret a) -> bind m k s = k a s'.
Proof. intros H. unfold bind. now rewrite H. Qed.

Lemma bind_raise_eq {S A B} (m : M S A) (k : A -> M S B) (s s' : S) (msg : string) :
  m s = (s', Raise msg) -> bind m k s = (s', Raise msg).
Proof. intros H. unfold bind. now rewrite H. Qed.

Lemma lift_eq {A} (m : M World A) (p : Pipeline) (w' : World) (r : Res A) :
  m (world p) = (w', r) ->
  lift m p = (mkPipeline w' (redis_available p) (enable_quality_gates p) (stats p), r).
Proof. intros H. unfold lift. now rewrite H. Qed.

End Runs.

(** The values of a mapping built by insertions are strings and numbers. *)
Ltac solve_encodable :=
  repeat (apply map_Forall_insert_2; [reflexivity|]); apply map_Forall_empty.

(** One step of a run: the call succeeds with the outcome [H] states. *)
Ltac run_step H :=
  erewrite bind_ret_eq; [|apply lift_eq; cbn [world]; exact H];
  cbv beta iota; cbn [world redis_available enable_quality_gates stats].

(** ** Submission *)

Section Submission.

(** C3. When the emotion is not one of the twelve names of the index, or the
    intensity is not light, medium or heavy, [submit_video_job] reports
    failure by returning [None] and leaves the whole state as it was: no
    record, no queue entry, no expiry, no clock reading, no call to the
    store, no change of the statistics. *)
Theorem submit_video_job_rejects_invalid (p : Pipeline) (video_id : option string)
    (emotion intensity : string) (metadata : option pydict) :
  ~ In emotion get_all_emotions \/ ~ In intensity ["light"; "medium"; "heavy"] ->
  submit_video_job video_id emotion intensity metadata p = (p, Ret None).
Proof.
  intros H. unfold submit_video_job, try_except.
  destruct (member emotion get_all_emotions) eqn:He.
  - destruct H as [H|H].
    + apply member_not_In in H. congruence.
    + rewrite (member_not_In _ _ H). reflexivity.
  - reflexivity.
Qed.

Lemma submit_video_job_rejects_invalid_witness :
  (~ In "not_an_emotion" get_all_emotions \/
   ~ In "medium" ["light"; "medium"; "heavy"]) /\
  submit_video_job (Some "video_002") "not_an_emotion" "medium" None fresh_pipeline =
  (fresh_pipeline, Ret None).
Proof.
  assert (H : ~ In "not_an_emotion" get_all_emotions \/
              ~ In "medium" ["light"; "medium"; "heavy"]).
  { left. vm_compute. intuition discriminate. }
  split; [exact H|].
  exact (submit_video_job_rejects_invalid fresh_pipeline (Some "video_002")
           "not_an_emotion" "medium" None H).
Defined.

(** The mapping that [submit_job] passes to [hset] always holds a dict, the
    metadata, so that the write is refused after the two readings of the
    clock. *)
Lemma submit_job_raises (w : World) (video_id : option string)
    (emotion intensity : string) (metadata : option pydict) :
  submit_job video_id emotion intensity metadata w = (tick (tick w), Raise DataError).
Proof.
  unfold submit_job.
  erewrite bind_ret_eq; [|apply time_time_eq]. cbv beta zeta.
  erewrite bind_ret_eq; [|apply time_time_eq]. cbv beta zeta.
  erewrite bind_raise_eq; [reflexivity|].
  apply (hset_refused _ _ "metadata" (VMeta (default [] metadata))); reflexivity.
Qed.

(** C10 on the code.  [submit_job] has no check of the emotion or of the
    intensity, and it never creates a job either.  For every video id,
    emotion, intensity and metadata and in every state of the store, its
    first write is refused by the client with [DataError], because the mapping
    holds [None] for the start and the completion and a dict for the
    metadata: no job id is returned, no call reaches the store, and the
    store has no record, no expiry and no queue entry that it had not
    before. *)
Theorem submit_job_never_stores (w : World) (video_id : option string)
    (emotion intensity : string) (metadata : option pydict) :
  exists w',
    submit_job video_id emotion intensity metadata w = (w', Raise DataError) /\
    store w' = store w /\
    faults w' = faults w.
Proof.
  exists (tick (tick w)). split; [apply submit_job_raises|]. split; reflexivity.
Qed.

(** The submission of the sample job to an empty store that answers. *)
Example submit_job_sample :
  submit_job (Some "video_001") "curiosity" "medium" None fresh_world =
  (mkWorld empty_store 1700000000001520 [300; 4000; 50; 600; 7; 80; 9] [],
   Raise DataError).
Proof. vm_compute. reflexivity. Qed.

End Submission.

(** ** Status updates *)

Section StatusUpdates.

Lemma update_job_status_result (w : World) (job_id : string) (status : ServiceStatus)
    (service error : option string) :
  hd None (faults w) = None ->
  exists update t,
    update_job_status job_id status service error w =
    (mkWorld
       (mkStore
          (<[job_key job_id := update ∪ default ∅ (hashes (store w) !! job_key job_id)]>
             (hashes (store w)))
          (lists (store w)) (ttls (store w)))
       t (match status, given service with
          | PROCESSING, Some _ | COMPLETED, _ => tl (tl (ticks w))
          | _, _ => tl (ticks w)
          end)
       (tl (faults w)),
     Ret tt) /\
    update !! "status" = Some (VStr (status_value status)).
Proof.
  intros Hok. unfold update_job_status, bind, time_time.
  destruct status, (given service) as [svc|], (given error) as [err|];
    cbn [ret bind store now ticks faults];
    rewrite hset_accepted by solve_encodable;
    rewrite store_call_ok by exact Hok;
    cbn [fst snd after_call store now ticks faults hashes lists ttls];
    (eexists _, _; split; [reflexivity|reflexivity]).
Qed.

(** C1, as the code has it.  [update_job_status] checks no transition: for
    every job id and every requested status, whatever is stored for the job
    (even nothing), the call returns normally when its write to the store
    succeeds, and the stored status is then the requested one. *)
Theorem update_job_status_overwrites (w : World) (job_id : string)
    (status : ServiceStatus) (service error : option string) :
  calls_ok 1 (faults w) ->
  exists w',
    update_job_status job_id status service error w = (w', Ret tt) /\
    stored_status job_id w' = Some (VStr (status_value status)).
Proof.
  intros H. apply calls_ok_next in H as [H _].
  destruct (update_job_status_result w job_id status service error H)
    as (update & t & -> & Hs).
  eexists. split; [reflexivity|].
  unfold stored_status. cbn [store hashes].
  rewrite lookup_insert_eq. cbn [mbind option_bind].
  apply lookup_union_Some_l. exact Hs.
Qed.
Lemma update_job_status_overwrites_witness :
  calls_ok 1 (faults (world submitted_pipeline)) /\
  exists w',
    update_job_status sample_job_id PAUSED None None (world submitted_pipeline) =
      (w', Ret tt) /\
    stored_status sample_job_id w' = Some (VStr (status_value PAUSED)).
Proof.
  split; [exact I|].
  exact (update_job_status_overwrites (world submitted_pipeline) sample_job_id
           PAUSED None None I).
Defined.

(** C1 fails on the code.  The sample job is completed, the specification has
    no transition from completed to idle, and yet the request to make it idle
    returns normally and changes the stored status. *)
Lemma completed_job_is_made_idle :
  stored_status sample_job_id (world completed_pipeline) =
    Some (VStr (status_value COMPLETED)) /\
  spec_transition COMPLETED IDLE = false /\
  exists w',
    update_job_status sample_job_id IDLE None None (world completed_pipeline) =
      (w', Ret tt) /\
    stored_status sample_job_id w' = Some (VStr (status_value IDLE)).
Proof.
  split; [vm_compute; reflexivity|]. split; [reflexivity|].
  exists (fst (update_job_status sample_job_id IDLE None None
                 (world completed_pipeline))).
  split; vm_compute; reflexivity.
Qed.

End StatusUpdates.

(** ** Health *)

Section HealthCheck.

Lemma try_except_returns {S A} (m : M S A) (a0 : A) (s : S) :
  exists s' a, try_except m (fun _ => ret a0) s = (s', Ret a).
Proof.
  unfold try_except. destruct (m s) as [s' [a|msg]]; eexists _, _; reflexivity.
Qed.

Lemma check_queues_returns (w : World) :
  exists w' accessible, check_queues w = (w', Ret accessible).
Proof. apply try_except_returns. Qed.

Lemma check_index_returns (w : World) :
  exists w' loaded, check_index w = (w', Ret loaded).
Proof. apply try_except_returns. Qed.

(** C4, as the code has it.  When the ping fails, [health_check] returns at
    once: all three fields are false and no other call is made to the store.
    When the ping succeeds, the queue check and the index check are both
    made, the second in the state the first one leaves, whatever the first
    one found. *)
Theorem health_check_stops_at_failed_ping (w : World) :
  (forall msg, hd None (faults w) = Some msg ->
     health_check w = (after_call (store w) w, Ret (mkHealth false false false))) /\
  (hd None (faults w) = None ->
     exists w1 accessible w2 loaded,
       check_queues (after_call (store w) w) = (w1, Ret accessible) /\
       check_index w1 = (w2, Ret loaded) /\
       health_check w = (w2, Ret (mkHealth true accessible loaded))).
Proof.
  split.
  - intros msg H. unfold health_check, bind, try_except, ping.
    rewrite (store_call_fault _ _ msg H). reflexivity.
  - intros H.
    destruct (check_queues_returns (after_call (store w) w)) as (w1 & accessible & Hq).
    destruct (check_index_returns w1) as (w2 & loaded & Hi).
    exists w1, accessible, w2, loaded. split; [exact Hq|]. split; [exact Hi|].
    unfold health_check, bind, try_except, ping.
    rewrite (store_call_ok _ _ H). cbn [fst snd ret negb].
    rewrite Hq, Hi. reflexivity.
Qed.
Lemma health_check_stops_at_failed_ping_witness :
  (hd None (faults ping_down_world) = Some "Connection refused" /\
   health_check ping_down_world =
     (after_call (store ping_down_world) ping_down_world,
      Ret (mkHealth false false false))) /\
  (hd None (faults queue_down_world) = None /\
   exists w1 accessible w2 loaded,
     check_queues (after_call (store queue_down_world) queue_down_world) =
       (w1, Ret accessible) /\
     check_index w1 = (w2, Ret loaded) /\
     health_check queue_down_world = (w2, Ret (mkHealth true accessible loaded))).
Proof.
  split.
  - split; [reflexivity|].
    apply (proj1 (health_check_stops_at_failed_ping ping_down_world)
             "Connection refused").
    reflexivity.
  - split; [reflexivity|].
    apply (proj2 (health_check_stops_at_failed_ping queue_down_world)). reflexivity.
Defined.

(** With a reachable store whose queues cannot be read, the index check is
    still made and reported. *)
Example health_check_queue_down :
  snd (health_check queue_down_world) = Ret (mkHealth true false true).
Proof. vm_compute. reflexivity. Qed.

(** C4 fails on the code.  In this world only the ping fails: the index is
    seeded and the later calls succeed.  [health_check] makes one call to the
    store and reports the queues and the index as not available, although both
    checks succeed when they are run in the state it leaves. *)
Lemma failed_ping_blocks_other_checks :
  let w' := fst (health_check ping_down_world) in
  snd (health_check ping_down_world) = Ret (mkHealth false false false) /\
  faults w' = tl (faults ping_down_world) /\
  snd (check_queues w') = Ret true /\
  snd (check_index (fst (check_queues w'))) = Ret true.
Proof. cbv zeta. repeat apply conj; vm_compute; reflexivity. Qed.

End HealthCheck.

(** ** Reset *)

Section Reset.

Lemma for_each_delete {A} (f : A -> string) (xs : list A) (w : World) :
  no_faults (faults w) ->
  exists w',
    for_each xs (fun x => delete_key (f x)) w = (w', Ret tt) /\
    no_faults (faults w') /\
    (forall k, k ∈ f <$> xs ->
       hashes (store w') !! k = None /\ lists (store w') !! k = None) /\
    (forall k, k ∉ f <$> xs ->
       hashes (store w') !! k = hashes (store w) !! k /\
       lists (store w') !! k = lists (store w) !! k).
Proof.
  revert w. induction xs as [|x xs IH]; intros w Hok.
  - exists w. split; [reflexivity|]. split; [exact Hok|]. split.
    + intros k Hk. simpl in Hk. by apply elem_of_nil in Hk.
    + intros k _. split; reflexivity.
  - apply no_faults_next in Hok as [Hhd Htl].
    cbn [for_each]. unfold bind at 1. unfold delete_key at 1.
    rewrite (store_call_ok _ _ Hhd). cbn [fst snd].
    destruct (IH (after_call
                    (mkStore (delete (f x) (hashes (store w)))
                       (delete (f x) (lists (store w)))
                       (delete (f x) (ttls (store w)))) w) Htl)
      as (w' & Hrun & Hok' & Hin & Hout).
    exists w'. split; [exact Hrun|]. split; [exact Hok'|].
    cbn [after_call store hashes lists] in Hout.
    split.
    + intros k Hk. rewrite fmap_cons in Hk.
      destruct (decide (k ∈ f <$> xs)) as [Hk'|Hk']; [by apply Hin|].
      apply elem_of_cons in Hk as [->|Hk]; [|contradiction].
      destruct (Hout _ Hk') as [-> ->]. by rewrite !lookup_delete_eq.
    + intros k Hk. rewrite fmap_cons in Hk. apply not_elem_of_cons in Hk as [Hne Hk].
      destruct (Hout _ Hk) as [-> ->]. by rewrite !lookup_delete_ne.
Qed.

Lemma job_key_has_prefix (job_id : string) :
  String.prefix (state_prefix +:+ ":") (job_key job_id) = true.
Proof.
  unfold job_key. simpl. apply String.prefix_correct.
  destruct job_id; reflexivity.
Qed.

(** C7. Without confirmation [reset_pipeline] reports refusal by returning
    [False] and leaves the whole state as it was.  With confirmation, when
    the store does not fail, it returns [True], and afterwards none of the
    six queues and no state record is left. *)
Theorem reset_pipeline_needs_confirmation (w : World) :
  reset_pipeline false w = (w, Ret false) /\
  (no_faults (faults w) ->
   exists w',
     reset_pipeline true w = (w', Ret true) /\
     (forall q, In q queues -> lists (store w') !! snd q = None) /\
     (forall job_id, hashes (store w') !! job_key job_id = None)).
Proof.
  split; [reflexivity|]. intros Hok.
  destruct (for_each_delete snd queues w Hok) as (w1 & Hrun1 & Hok1 & Hin1 & _).
  pose proof (no_faults_next _ Hok1) as [Hhd Hok2].
  set (keys := matching_keys (state_prefix +:+ ":") (store w1)).
  destruct (for_each_delete (fun k => k) keys (after_call (store w1) w1) Hok2)
    as (w2 & Hrun2 & _ & Hin2 & Hout2).
  rewrite list_fmap_id in Hin2, Hout2.
  exists w2. split.
  - unfold reset_pipeline. cbn [negb]. unfold try_except, bind.
    rewrite Hrun1. unfold scan_iter. rewrite (store_call_ok _ _ Hhd).
    cbn [fst snd]. fold keys.
    change (for_each keys delete_key) with (for_each keys (fun k => delete_key k)).
    rewrite Hrun2. reflexivity.
  - split.
    + intros q Hq. destruct (decide (snd q ∈ keys)) as [Hk|Hk].
      * apply (Hin2 _ Hk).
      * rewrite (proj2 (Hout2 _ Hk)). cbn [after_call store].
        apply Hin1. apply list_elem_of_fmap. exists q. split; [reflexivity|].
        by apply list_elem_of_In.
    + intros job_id. destruct (decide (job_key job_id ∈ keys)) as [Hk|Hk].
      * apply (Hin2 _ Hk).
      * rewrite (proj1 (Hout2 _ Hk)). cbn [after_call store].
        destruct (hashes (store w1) !! job_key job_id) as [rec|] eqn:E; [|reflexivity].
        exfalso. apply Hk. unfold keys, matching_keys.
        apply list_elem_of_filter. split; [apply job_key_has_prefix|].
        apply elem_of_elements, elem_of_union. left.
        apply elem_of_dom. eauto.
Qed.
Lemma reset_pipeline_needs_confirmation_witness :
  reset_pipeline false (world completed_pipeline) =
    (world completed_pipeline, Ret false) /\
  (no_faults (faults (world completed_pipeline)) /\
   exists w',
     reset_pipeline true (world completed_pipeline) = (w', Ret true) /\
     (forall q, In q queues -> lists (store w') !! snd q = None) /\
     (forall job_id, hashes (store w') !! job_key job_id = None)).
Proof.
  assert (H : no_faults (faults (world completed_pipeline))).
  { intros n. destruct n; exact I. }
  destruct (reset_pipeline_needs_confirmation (world completed_pipeline))
    as [Hrefuse Hclear].
  split; [exact Hrefuse|]. split; [exact H|]. exact (Hclear H).
Defined.

(** On the sample, the reset leaves the empty store. *)
Example reset_pipeline_sample :
  store (world completed_pipeline) <> empty_store /\
  store (fst (reset_pipeline true (world completed_pipeline))) = empty_store.
Proof. split; [|vm_compute; reflexivity]. vm_compute. discriminate. Qed.

End Reset.

(** ** Processing *)

Section Processing.










End Processing.

(** ** Batches *)

Section Batches.

(** The counts of [batch_process] add up whenever it returns. *)
Lemma batch_loop_counts (jobs : list (gmap string string)) (results results' : BatchResults)
    (p p' : Pipeline) :
  batch_loop jobs results p = (p', Ret results') ->
  total results' = total results /\
  (successful results' + failed results' =
   successful results + failed results + length jobs)%nat.
Proof.
  revert results p. induction jobs as [|job_spec rest IH]; intros results p.
  - cbn. intros [= <- <-]. split; [reflexivity|lia].
  - cbn [batch_loop length]. unfold bind at 1.
    destruct (submit_video_job _ _ _ _ p) as [p1 [job_id|msg]]; [|discriminate].
    unfold bind at 1.
    destruct (given job_id) as [id|].
    + unfold bind at 1.
      destruct (process_job id p1) as [p2 [ok|msg]]; [|discriminate].
      cbn [ret]. intros H. apply IH in H as [Ht Hs].
      destruct ok; cbn in Ht, Hs; split; try assumption; lia.
    + cbn [ret]. intros H. apply IH in H as [Ht Hs].
      cbn in Ht, Hs. split; try assumption; lia.
Qed.

Lemma batch_process_counts (jobs : list (gmap string string)) (results : BatchResults)
    (p p' : Pipeline) :
  batch_process jobs p = (p', Ret results) ->
  total results = length jobs /\
  (successful results + failed results = total results)%nat.
Proof.
  intros H. apply batch_loop_counts in H as [Ht Hs]. cbn in Ht, Hs.
  split; [exact Ht|]. rewrite Ht. exact Hs.
Qed.

End Batches.

(** ** Batches, with and without store *)

Section EveryBatch.

Lemma submit_video_job_local (p : Pipeline) (video_id : option string)
    (emotion intensity : string) (metadata : option pydict) :
  redis_available p = false ->
  exists p' job_id,
    submit_video_job video_id emotion intensity metadata p = (p', Ret job_id) /\
    redis_available p' = false /\
    store (world p') = store (world p) /\
    faults (world p') = faults (world p) /\
    jobs_completed (stats p') = jobs_completed (stats p) /\
    jobs_failed (stats p') = jobs_failed (stats p).
Proof.
  intros Hav. unfold submit_video_job, try_except.
  destruct (negb (member emotion get_all_emotions));
    [eexists _, _; repeat apply conj; try reflexivity; exact Hav|].
  destruct (negb (member intensity ["light"; "medium"; "heavy"]));
    [eexists _, _; repeat apply conj; try reflexivity; exact Hav|].
  destruct (validate_profile _) as [is_valid errors].
  destruct (negb is_valid);
    [eexists _, _; repeat apply conj; try reflexivity; exact Hav|].
  rewrite (bind_ret_eq (read redis_available) _ _ _ _ eq_refl). rewrite Hav.
  eexists _, _. repeat apply conj; try reflexivity. exact Hav.
Qed.

Lemma process_job_local (p : Pipeline) (job_id : string) :
  redis_available p = false ->
  process_job job_id p =
  (mkPipeline (tick (world p)) (redis_available p) (enable_quality_gates p) (stats p),
   Ret false).
Proof.
  intros Hav. unfold process_job, try_except.
  erewrite bind_ret_eq; [|apply lift_eq, time_time_eq]. cbv beta.
  rewrite (bind_ret_eq (read redis_available) _ _ _ _ eq_refl).
  cbn [redis_available]. rewrite Hav. reflexivity.
Qed.

Lemma batch_loop_local (jobs : list (gmap string string)) (results : BatchResults)
    (p : Pipeline) :
  redis_available p = false ->
  exists p' results',
    batch_loop jobs results p = (p', Ret results') /\
    successful results' = successful results /\
    failed results' = (failed results + length jobs)%nat /\
    store (world p') = store (world p) /\
    faults (world p') = faults (world p) /\
    jobs_completed (stats p') = jobs_completed (stats p) /\
    jobs_failed (stats p') = jobs_failed (stats p).
Proof.
  revert results p. induction jobs as [|job_spec rest IH]; intros results p Hav.
  - eexists _, _. split; [reflexivity|]. repeat apply conj; try reflexivity.
    cbn. lia.
  - cbn [batch_loop length].
    destruct (submit_video_job_local p (job_spec !! "video_id")
                (default "curiosity" (job_spec !! "emotion"))
                (default "medium" (job_spec !! "intensity")) None Hav)
      as (p1 & job_id & Hsub & Hav1 & Hs1 & Hf1 & Hc1 & Hj1).
    erewrite bind_ret_eq; [|exact Hsub].
    destruct (given job_id) as [id|].
    + erewrite bind_ret_eq;
        [|erewrite bind_ret_eq; [|apply (process_job_local p1 id Hav1)]; reflexivity].
      cbv beta iota.
      destruct (IH (count_failure (add_job_id id results))
                  (mkPipeline (tick (world p1)) (redis_available p1)
                     (enable_quality_gates p1) (stats p1)) Hav1)
        as (p' & r' & Hrun & Hsuc & Hfail & Hs & Hf & Hc & Hj).
      exists p', r'. split; [exact Hrun|].
      cbn in Hsuc, Hfail, Hs, Hf, Hc, Hj.
      repeat apply conj; try congruence. lia.
    + erewrite bind_ret_eq; [|reflexivity].
      destruct (IH (count_failure results) p1 Hav1)
        as (p' & r' & Hrun & Hsuc & Hfail & Hs & Hf & Hc & Hj).
      exists p', r'. split; [exact Hrun|].
      cbn in Hsuc, Hfail.
      repeat apply conj; try congruence. lia.
Qed.

(** With the store available the submission to the store raises, and
    [submit_video_job] turns the exception into [None]. *)
Lemma submit_video_job_available (p : Pipeline) (video_id : option string)
    (emotion intensity : string) (metadata : option pydict) :
  redis_available p = true ->
  exists p',
    submit_video_job video_id emotion intensity metadata p = (p', Ret None) /\
    redis_available p' = true /\
    store (world p') = store (world p) /\
    faults (world p') = faults (world p) /\
    stats p' = stats p.
Proof.
  intros Hav. unfold submit_video_job, try_except.
  destruct (negb (member emotion get_all_emotions));
    [eexists; repeat apply conj; try reflexivity; exact Hav|].
  destruct (negb (member intensity ["light"; "medium"; "heavy"]));
    [eexists; repeat apply conj; try reflexivity; exact Hav|].
  destruct (validate_profile _) as [is_valid errors].
  destruct (negb is_valid);
    [eexists; repeat apply conj; try reflexivity; exact Hav|].
  rewrite (bind_ret_eq (read redis_available) _ _ _ _ eq_refl). rewrite Hav.
  erewrite bind_raise_eq; [|apply lift_eq, submit_job_raises].
  eexists. repeat apply conj; try reflexivity. exact Hav.
Qed.

Lemma batch_loop_available (jobs : list (gmap string string)) (results : BatchResults)
    (p : Pipeline) :
  redis_available p = true ->
  exists p' results',
    batch_loop jobs results p = (p', Ret results') /\
    successful results' = successful results /\
    failed results' = (failed results + length jobs)%nat /\
    job_ids results' = job_ids results /\
    store (world p') = store (world p) /\
    faults (world p') = faults (world p) /\
    stats p' = stats p.
Proof.
  revert results p. induction jobs as [|job_spec rest IH]; intros results p Hav.
  - eexists _, _. split; [reflexivity|]. repeat apply conj; try reflexivity.
    cbn. lia.
  - cbn [batch_loop length].
    destruct (submit_video_job_available p (job_spec !! "video_id")
                (default "curiosity" (job_spec !! "emotion"))
                (default "medium" (job_spec !! "intensity")) None Hav)
      as (p1 & Hsub & Hav1 & Hs1 & Hf1 & Hst1).
    erewrite bind_ret_eq; [|exact Hsub]. cbn [given].
    erewrite bind_ret_eq; [|reflexivity].
    destruct (IH (count_failure results) p1 Hav1)
      as (p' & r' & Hrun & Hsuc & Hfail & Hids & Hs & Hf & Hst).
    exists p', r'. split; [exact Hrun|].
    cbn in Hsuc, Hfail, Hids.
    repeat apply conj; try congruence. lia.
Qed.

(** Either way every job of a batch is counted as failed. *)
Lemma batch_loop_fails_all (jobs : list (gmap string string)) (results : BatchResults)
    (p : Pipeline) :
  exists p' results',
    batch_loop jobs results p = (p', Ret results') /\
    successful results' = successful results /\
    failed results' = (failed results + length jobs)%nat /\
    store (world p') = store (world p) /\
    faults (world p') = faults (world p) /\
    jobs_completed (stats p') = jobs_completed (stats p) /\
    jobs_failed (stats p') = jobs_failed (stats p).
Proof.
  destruct (redis_available p) eqn:Hav.
  - destruct (batch_loop_available jobs results p Hav)
      as (p' & r' & Hrun & Hsuc & Hfail & _ & Hs & Hf & Hst).
    exists p', r'. rewrite Hst. repeat apply conj; try assumption; reflexivity.
  - apply batch_loop_local. exact Hav.
Qed.


(** A batch of two jobs on an empty store that answers every call. *)
Example batch_process_sample :
  snd (batch_process two_jobs fresh_pipeline) = Ret (mkResults 2 0 2 []).
Proof. vm_compute. reflexivity. Qed.

End EveryBatch.

(** ** What a run may write *)

Section NeverFailed.

Lemma preserves_ret {S A} (I : S -> Prop) (a : A) : preserves I (ret a).
Proof. intros s s' r [= <- _] H. exact H. Qed.

Lemma preserves_lift_res {S A} (I : S -> Prop) (x : Res A) : preserves I (lift_res x).
Proof. intros s s' r [= <- _] H. exact H. Qed.

Lemma preserves_bind {S A B} (I : S -> Prop) (m : M S A) (k : A -> M S B) :
  preserves I m -> (forall a, preserves I (k a)) -> preserves I (bind m k).
Proof.
  intros Hm Hk s s' r. unfold bind.
  destruct (m s) as [s1 [a|msg]] eqn:E.
  - intros Hrun H. exact (Hk a s1 s' r Hrun (Hm s s1 _ E H)).
  - intros [= <- _] H. exact (Hm s s1 _ E H).
Qed.

Lemma preserves_try_except {S A} (I : S -> Prop) (m : M S A) (h : string -> M S A) :
  preserves I m -> (forall msg, preserves I (h msg)) -> preserves I (try_except m h).
Proof.
  intros Hm Hh s s' r. unfold try_except.
  destruct (m s) as [s1 [a|msg]] eqn:E.
  - intros [= <- _] H. exact (Hm s s1 _ E H).
  - intros Hrun H. exact (Hh msg s1 s' r Hrun (Hm s s1 _ E H)).
Qed.

Lemma preserves_lift {A} (I : World -> Prop) (m : M World A) :
  preserves I m -> preserves (fun p => I (world p)) (lift m).
Proof.
  intros Hm p p' r. unfold lift.
  destruct (m (world p)) as [w' x] eqn:E.
  intros [= <- _] H. cbn [world]. exact (Hm _ _ _ E H).
Qed.

Lemma preserves_read {A} (I : Pipeline -> Prop) (f : Pipeline -> A) :
  preserves I (read f).
Proof. intros s s' r [= <- _] H. exact H. Qed.

Lemma preserves_update_stats (I : World -> Prop) (f : Stats -> Stats) :
  preserves (fun p => I (world p)) (update_stats f).
Proof. intros s s' r [= <- _] H. exact H. Qed.

Lemma preserves_time_time (job_id : string) : preserves (not_failed job_id) time_time.
Proof. intros w w' r [= <- _] H. exact H. Qed.

(** A call to the store that leaves the hashes as they are. *)
Lemma preserves_store_read {A} (job_id : string) (op : Store -> Store * A) :
  (forall s, hashes (op s).1 = hashes s) ->
  preserves (not_failed job_id) (store_call op).
Proof.
  intros Hop w w' r. unfold store_call.
  destruct (hd None (faults w)) as [msg|].
  - intros [= <- _] H. exact H.
  - specialize (Hop (store w)). destruct (op (store w)) as [s' a].
    intros [= <- _] H. unfold not_failed, stored_status in *.
    cbn [store fst] in *. rewrite Hop. exact H.
Qed.

Lemma preserves_hset (job_id key : string) (update : gmap string value) (v : value) :
  update !! "status" = Some v ->
  v <> VStr (status_value FAILED) ->
  preserves (not_failed job_id) (hset key update).
Proof.
  intros Hs Hv w w' r. unfold hset.
  destruct (all_encodable update); [|intros [= <- _] H; exact H].
  unfold store_call.
  destruct (hd None (faults w)) as [msg|]; intros [= <- _] H; [exact H|].
  unfold not_failed, stored_status in *. cbn [store hashes] in *.
  destruct (decide (key = job_key job_id)) as [->|Hne].
  - rewrite lookup_insert_eq. cbn [mbind option_bind].
    rewrite (lookup_union_Some_l _ _ _ _ Hs). congruence.
  - rewrite lookup_insert_ne by exact Hne. exact H.
Qed.

Lemma preserves_update_job_status (job_id job_id' : string) (status : ServiceStatus)
    (service error : option string) :
  status <> FAILED ->
  preserves (not_failed job_id') (update_job_status job_id status service error).
Proof.
  intros Hst w w' r. unfold update_job_status, bind, time_time.
  destruct status, (given service) as [svc|], (given error) as [err|];
    try contradiction; cbn [ret store now ticks faults];
    (intros Hrun H;
     refine (preserves_hset job_id' _ _ _ _ _ _ _ _ Hrun H);
     [reflexivity|discriminate]).
Qed.

Lemma preserves_move_to_dlq (job_id job_id' error : string) :
  preserves (not_failed job_id') (move_to_dlq job_id error).
Proof.
  unfold move_to_dlq.
  apply preserves_bind; [apply preserves_store_read; reflexivity|]. intros job_data.
  destruct (Nat.eqb (size job_data) 0); [apply preserves_ret|].
  apply preserves_bind; [apply preserves_time_time|]. intros moved.
  apply preserves_store_read. reflexivity.
Qed.

Lemma preserves_get_job_status (job_id job_id' : string) :
  preserves (not_failed job_id') (get_job_status job_id).
Proof.
  unfold get_job_status.
  apply preserves_bind; [apply preserves_store_read; reflexivity|]. intros job_data.
  apply preserves_ret.
Qed.

(** No run of [process_job], whether it succeeds, gives up or fails, makes
    the status of any job failed. *)
Lemma process_job_never_marks_failed (job_id job_id' : string) :
  preserves (fun p => not_failed job_id' (world p)) (process_job job_id).
Proof.
  unfold process_job.
  apply preserves_try_except.
  - apply preserves_bind; [apply preserves_lift, preserves_time_time|]. intros start.
    apply preserves_bind; [apply preserves_read|]. intros available.
    destruct (negb available); [apply preserves_ret|].
    apply preserves_bind; [apply preserves_lift, preserves_get_job_status|].
    intros [job_status|]; [|apply preserves_ret].
    repeat first
      [ apply preserves_ret
      | apply preserves_lift_res
      | apply preserves_read
      | apply (preserves_update_stats (not_failed job_id'))
      | apply preserves_lift, preserves_time_time
      | apply preserves_lift, preserves_update_job_status; discriminate
      | match goal with |- preserves _ (if ?b then _ else _) => destruct b end
      | apply preserves_bind; [|intros ?] ].
  - intros msg.
    apply preserves_bind; [apply (preserves_update_stats (not_failed job_id'))|].
    intros _.
    apply preserves_bind; [apply preserves_read|]. intros available.
    apply preserves_bind; [|intros _; apply preserves_ret].
    destruct available; [|apply preserves_ret].
    apply preserves_lift, preserves_move_to_dlq.
Qed.
End NeverFailed.

(** ** Failures *)

Section Failures.

(** C2 on the code.  The second stage of the sample job raises.
    [process_job] returns [False] and the dead-letter queue receives one entry
    with the attributes of the job, the error text and the time of the move;
    but the record of the job keeps status processing and gets no error
    field: the handler never calls [update_job_status] with [FAILED]. *)
Theorem process_job_failure_keeps_status_processing :
  let p' := fst (process_job sample_job_id stage_fault_pipeline) in
  snd (process_job sample_job_id stage_fault_pipeline) = Ret false /\
  stored_status sample_job_id (world p') = Some (VStr (status_value PROCESSING)) /\
  (hashes (store (world p')) !! job_key sample_job_id ≫= (.!! "error")) = None /\
  exists entry moved,
    lists (store (world p')) !! queue_key "dlq" = Some [entry] /\
    entry !! "job_id" = Some (VStr sample_job_id) /\
    entry !! "emotion" = Some (VStr "curiosity") /\
    entry !! "status" = Some (VStr (status_value PROCESSING)) /\
    entry !! "error" = Some (VStr "Connection reset by peer") /\
    entry !! "moved_to_dlq_at" = Some (VNum moved).
Proof.
  cbv zeta. split; [vm_compute; reflexivity|].
  split; [vm_compute; reflexivity|]. split; [vm_compute; reflexivity|].
  exists (default ∅
            (head (default [] (lists (store (world (fst (process_job sample_job_id
                                                     stage_fault_pipeline))))
                               !! queue_key "dlq")))).
  eexists. repeat apply conj; vm_compute; reflexivity.
Qed.

End Failures.

(** * Further properties *)

(** ** Queues *)

Section Queues.

Lemma queue_key_of (service key : string) :
  dict_get service queues = Some key -> In service services /\ In (service, key) queues.
Proof.
  intros H. split.
  - apply dict_get_In in H. apply (in_map fst) in H. exact H.
  - apply dict_get_In. exact H.
Qed.

Lemma rpush_ok (w : World) (key : string) (payload : gmap string value) :
  hd None (faults w) = None ->
  rpush key payload w =
  (after_call
     (mkStore (hashes (store w))
        (<[key := (queue_content key w ++ [payload])%list]> (lists (store w)))
        (ttls (store w))) w, Ret tt).
Proof. intros H. unfold rpush. rewrite (store_call_ok _ _ H). reflexivity. Qed.

Lemma blpop_nonempty (w : World) (key : string) (timeout : N)
    (x : gmap string value) (rest : list (gmap string value)) :
  hd None (faults w) = None ->
  queue_content key w = x :: rest ->
  exists w',
    blpop key timeout w = (w', Ret (Item x)) /\
    queue_content key w' = rest /\
    hashes (store w') = hashes (store w) /\
    faults w' = tl (faults w).
Proof.
  intros H Hq. unfold blpop. rewrite (store_call_ok _ _ H).
  unfold queue_content in Hq. rewrite Hq.
  destruct rest as [|y rest]; cbn [fst snd]; eexists; (split; [reflexivity|]);
    unfold queue_content; cbn [after_call store lists hashes faults].
  - rewrite lookup_delete_eq. repeat apply conj; reflexivity.
  - rewrite lookup_insert_eq. repeat apply conj; reflexivity.
Qed.

(** X1. Queues are first in, first out: [enqueue] puts the job data behind what
    the queue holds, and the [dequeue] that follows returns the oldest
    element, which is the new one only when the queue was empty. *)
Theorem enqueue_dequeue_fifo (w : World) (service key : string)
    (job_data : gmap string value) (timeout : N) :
  dict_get service queues = Some key ->
  calls_ok 2 (faults w) ->
  exists w1 w2,
    enqueue service job_data w = (w1, Ret true) /\
    queue_content key w1 = (queue_content key w ++ [job_data])%list /\
    dequeue service timeout w1 = (w2, Ret (Item (hd job_data (queue_content key w)))) /\
    queue_content key w2 = tl (queue_content key w ++ [job_data])%list.
Proof.
  intros Hs Hok.
  apply calls_ok_next in Hok as [H1 Hok]. apply calls_ok_next in Hok as [H2 _].
  unfold enqueue, dequeue. rewrite Hs.
  erewrite bind_ret_eq; [|apply (rpush_ok _ _ _ H1)].
  set (w1 := after_call
               (mkStore (hashes (store w))
                  (<[key := (queue_content key w ++ [job_data])%list]>
                     (lists (store w)))
                  (ttls (store w))) w).
  assert (H2' : hd None (faults w1) = None) by exact H2.
  assert (Hq : queue_content key w1 = (queue_content key w ++ [job_data])%list).
  { unfold queue_content at 1, w1. cbn [after_call store lists].
    rewrite lookup_insert_eq. reflexivity. }
  cbv beta.
  destruct (queue_content key w ++ [job_data])%list as [|x rest] eqn:E.
  { destruct (queue_content key w); discriminate. }
  destruct (blpop_nonempty w1 key timeout x rest H2' Hq) as (w2 & Hpop & Hrest & _ & _).
  assert (Hx : hd job_data (queue_content key w) = x).
  { destruct (queue_content key w); cbn in E |- *; congruence. }
  exists w1, w2. split; [reflexivity|]. split; [exact Hq|].
  erewrite bind_ret_eq; [|exact Hpop].
  rewrite Hx. split; [reflexivity|exact Hrest].
Qed.

Lemma enqueue_dequeue_fifo_witness :
  dict_get "oracle" queues = Some "pipeline:queue:oracle" /\
  calls_ok 2 (faults (world submitted_pipeline)) /\
  exists w1 w2,
    enqueue "oracle" {["job_id" := VStr "later"]} (world submitted_pipeline) =
      (w1, Ret true) /\
    queue_content "pipeline:queue:oracle" w1 =
      (queue_content "pipeline:queue:oracle" (world submitted_pipeline) ++
       [{["job_id" := VStr "later"]}])%list /\
    dequeue "oracle" 0 w1 =
      (w2, Ret (Item (hd {["job_id" := VStr "later"]}
                        (queue_content "pipeline:queue:oracle"
                           (world submitted_pipeline))))) /\
    queue_content "pipeline:queue:oracle" w2 =
      tl (queue_content "pipeline:queue:oracle" (world submitted_pipeline) ++
          [{["job_id" := VStr "later"]}])%list.
Proof.
  split; [reflexivity|]. split; [exact I|].
  exact (enqueue_dequeue_fifo (world submitted_pipeline) "oracle"
           "pipeline:queue:oracle" {["job_id" := VStr "later"]} 0 eq_refl I).
Defined.

(** X2. A name that is not one of the six services never reaches the store, even
    when the store is down: [enqueue] answers [False], [dequeue] answers
    [None] and [get_queue_length] answers 0, and nothing changes. *)
Theorem unknown_service_is_ignored (w : World) (service : string)
    (job_data : gmap string value) (timeout : N) :
  ~ In service services ->
  enqueue service job_data w = (w, Ret false) /\
  dequeue service timeout w = (w, Ret NoItem) /\
  get_queue_length service w = (w, Ret 0%nat).
Proof.
  intros Hnot.
  assert (H : dict_get service queues = None) by (apply dict_get_None; exact Hnot).
  unfold enqueue, dequeue, get_queue_length. rewrite H. repeat apply conj; reflexivity.
Qed.

Lemma unknown_service_is_ignored_witness :
  ~ In "alchemist" services /\
  enqueue "alchemist" ∅ ping_down_world = (ping_down_world, Ret false) /\
  dequeue "alchemist" 0 ping_down_world = (ping_down_world, Ret NoItem) /\
  get_queue_length "alchemist" ping_down_world = (ping_down_world, Ret 0%nat).
Proof.
  assert (H : ~ In "alchemist" services) by (vm_compute; intuition discriminate).
  split; [exact H|].
  exact (unknown_service_is_ignored ping_down_world "alchemist" ∅ 0 H).
Defined.

(** X3. On an empty queue [dequeue] changes nothing: with a timeout it returns
    [None] once the timeout has passed, and with timeout 0 it waits without
    end. *)
Theorem dequeue_empty_queue (w : World) (service key : string) (timeout : N) :
  dict_get service queues = Some key ->
  hd None (faults w) = None ->
  queue_content key w = [] ->
  dequeue service timeout w =
  (after_call (store w) w, Ret (if N.eqb timeout 0 then Blocked else NoItem)).
Proof.
  intros Hs H Hq. unfold dequeue. rewrite Hs. unfold bind, blpop.
  rewrite (store_call_ok _ _ H). unfold queue_content in Hq. rewrite Hq.
  reflexivity.
Qed.

Lemma dequeue_empty_queue_witness :
  dict_get "ironist" queues = Some "pipeline:queue:ironist" /\
  hd None (faults fresh_world) = None /\
  queue_content "pipeline:queue:ironist" fresh_world = [] /\
  dequeue "ironist" 5 fresh_world =
    (after_call (store fresh_world) fresh_world, Ret NoItem) /\
  dequeue "ironist" 0 fresh_world =
    (after_call (store fresh_world) fresh_world, Ret Blocked).
Proof.
  split; [reflexivity|]. split; [reflexivity|]. split; [reflexivity|]. split.
  - exact (dequeue_empty_queue fresh_world "ironist" "pipeline:queue:ironist" 5
             eq_refl eq_refl eq_refl).
  - exact (dequeue_empty_queue fresh_world "ironist" "pipeline:queue:ironist" 0
             eq_refl eq_refl eq_refl).
Defined.

End Queues.

(** ** Records and the dead-letter queue *)

Section Records.

Lemma job_key_inj (a b : string) : job_key a = job_key b -> a = b.
Proof. unfold job_key. cbn. intros H. injection H. trivial. Qed.

(** The fields that [update_job_status] may write. *)
Lemma update_job_status_store (w : World) (job_id : string) (status : ServiceStatus)
    (service error : option string) :
  exists update : gmap string value,
    (forall field,
       ~ In field ["status"; "updated_at"; "current_service"; "started_at";
                   "completed_at"; "error"] ->
       update !! field = None) /\
    let s' := store (fst (update_job_status job_id status service error w)) in
    (s' = store w \/
     s' = mkStore
            (<[job_key job_id := update ∪ default ∅ (hashes (store w) !! job_key job_id)]>
               (hashes (store w)))
            (lists (store w)) (ttls (store w))).
Proof.
  unfold update_job_status, bind, time_time.
  destruct status, (given service) as [svc|], (given error) as [err|];
    cbn [ret store now ticks faults];
    rewrite hset_accepted by solve_encodable;
    unfold store_call; cbn [store now ticks faults];
    (eexists; split;
     [|destruct (hd None (faults w)); cbn [fst store]; [left|right]; reflexivity]);
    intros field Hf; cbn in Hf;
    repeat (rewrite lookup_insert_ne by (intros <-; tauto));
    apply lookup_empty.
Qed.

(** X4. [update_job_status] merges and touches nothing else: whatever its
    outcome, the queues and the expiry times are as before (in particular the
    expiry of the record is not renewed), the records of the other jobs are as
    before, and the fields of the record that a status update does not write
    keep their values. *)
Theorem update_job_status_frame (w : World) (job_id : string) (status : ServiceStatus)
    (service error : option string) :
  let w' := fst (update_job_status job_id status service error w) in
  lists (store w') = lists (store w) /\
  ttls (store w') = ttls (store w) /\
  (forall other, other <> job_id ->
     hashes (store w') !! job_key other = hashes (store w) !! job_key other) /\
  (forall (job : gmap string value) field v,
     hashes (store w) !! job_key job_id = Some job ->
     job !! field = Some v ->
     ~ In field ["status"; "updated_at"; "current_service"; "started_at";
                 "completed_at"; "error"] ->
     exists job' : gmap string value,
       hashes (store w') !! job_key job_id = Some job' /\ job' !! field = Some v).
Proof.
  destruct (update_job_status_store w job_id status service error)
    as (update & Hfields & Hstore).
  cbv zeta in *. destruct Hstore as [-> | ->].
  - repeat apply conj; try reflexivity. intros job field v Hjob Hv _. eauto.
  - cbn [lists ttls hashes]. repeat apply conj; try reflexivity.
    + intros other Hne. apply lookup_insert_ne.
      intros Heq. apply Hne. symmetry. exact (job_key_inj _ _ Heq).
    + intros job field v Hjob Hv Hf. rewrite lookup_insert_eq, Hjob.
      eexists. split; [reflexivity|]. cbn [from_option id].
      rewrite lookup_union_r by (apply Hfields; exact Hf). exact Hv.
Qed.

Lemma update_job_status_frame_witness :
  let w := world submitted_pipeline in
  let w' := fst (update_job_status sample_job_id PROCESSING (Some "oracle") None w) in
  "another_job" <> sample_job_id /\
  ~ In "created_at" ["status"; "updated_at"; "current_service"; "started_at";
                     "completed_at"; "error"] /\
  ttls (store w') = ttls (store w) /\
  hashes (store w') !! job_key "another_job" = hashes (store w) !! job_key "another_job" /\
  exists job' : gmap string value,
    hashes (store w') !! job_key sample_job_id = Some job' /\
    job' !! "created_at" = Some (VNum 1700000000001520).
Proof.
  cbv zeta.
  assert (Hne : "another_job" <> sample_job_id) by discriminate.
  assert (Hf : ~ In "created_at" ["status"; "updated_at"; "current_service";
                                  "started_at"; "completed_at"; "error"]).
  { cbn. intuition discriminate. }
  destruct (update_job_status_frame (world submitted_pipeline) sample_job_id
              PROCESSING (Some "oracle") None) as (_ & Httl & Hother & Hkeep).
  split; [exact Hne|]. split; [exact Hf|]. split; [exact Httl|].
  split; [exact (Hother "another_job" Hne)|].
  refine (Hkeep (default ∅ (hashes (store (world submitted_pipeline))
                              !! job_key sample_job_id))
            "created_at" (VNum 1700000000001520) _ _ Hf);
    vm_compute; reflexivity.
Defined.

(** X5. A status update for a job id that has no record does not fail: it creates
    a record that holds the fields of the update only, without job id or
    creation time, and this record has no expiry. *)
Theorem update_job_status_unknown_job (w : World) (job_id : string)
    (status : ServiceStatus) (service error : option string) :
  hd None (faults w) = None ->
  hashes (store w) !! job_key job_id = None ->
  ttls (store w) !! job_key job_id = None ->
  exists w' (job : gmap string value),
    update_job_status job_id status service error w = (w', Ret tt) /\
    hashes (store w') !! job_key job_id = Some job /\
    job !! "status" = Some (VStr (status_value status)) /\
    job !! "job_id" = None /\
    job !! "created_at" = None /\
    ttls (store w') !! job_key job_id = None.
Proof.
  intros Hok Hnone Httl.
  destruct (update_job_status_result w job_id status service error Hok)
    as (update & t & Hrun & Hs).
  destruct (update_job_status_store w job_id status service error)
    as (update' & Hfields & Hstore).
  rewrite Hrun in Hstore. cbv zeta in Hstore. cbn [fst store] in Hstore.
  assert (Hup : update ∪ default ∅ (hashes (store w) !! job_key job_id) =
                update' ∪ default ∅ (hashes (store w) !! job_key job_id)).
  { destruct Hstore as [Hstore|Hstore].
    - exfalso. apply (f_equal (fun s => hashes s !! job_key job_id)) in Hstore.
      cbn [hashes] in Hstore. rewrite lookup_insert_eq, Hnone in Hstore. discriminate.
    - apply (f_equal (fun s => hashes s !! job_key job_id)) in Hstore.
      cbn [hashes] in Hstore. rewrite !lookup_insert_eq in Hstore. congruence. }
  rewrite Hnone in Hup. cbn [from_option id] in Hup.
  rewrite !(right_id_L ∅ (∪)) in Hup. subst update'.
  eexists _, _. split; [exact Hrun|]. cbn [store hashes ttls].
  rewrite lookup_insert_eq, Hnone. cbn [from_option id].
  rewrite (right_id_L ∅ (∪)).
  split; [reflexivity|]. split; [exact Hs|].
  split; [apply Hfields; cbn; intuition discriminate|].
  split; [apply Hfields; cbn; intuition discriminate|exact Httl].
Qed.

Lemma update_job_status_unknown_job_witness :
  hd None (faults fresh_world) = None /\
  hashes (store fresh_world) !! job_key "ghost" = None /\
  ttls (store fresh_world) !! job_key "ghost" = None /\
  exists w' (job : gmap string value),
    update_job_status "ghost" COMPLETED None None fresh_world = (w', Ret tt) /\
    hashes (store w') !! job_key "ghost" = Some job /\
    job !! "status" = Some (VStr (status_value COMPLETED)) /\
    job !! "job_id" = None /\
    job !! "created_at" = None /\
    ttls (store w') !! job_key "ghost" = None.
Proof.
  split; [reflexivity|]. split; [reflexivity|]. split; [reflexivity|].
  exact (update_job_status_unknown_job fresh_world "ghost" COMPLETED None None
           eq_refl eq_refl eq_refl).
Defined.

(** X6. [move_to_dlq] on a job that has a record appends exactly one entry to the
    dead-letter queue: the record with the error text and the time of the
    move, every other attribute as in the record.  The time of the move is
    the reading of the wall clock during the call, which is not before the
    last reading unless the clock is set back.  The record itself is left as
    it is.  On a job without record nothing is appended. *)
Theorem move_to_dlq_appends_one_entry (w : World) (job_id error : string) :
  (forall job : gmap string value,
     calls_ok 2 (faults w) ->
     hashes (store w) !! job_key job_id = Some job ->
     job <> ∅ ->
     exists w' moved (entry : gmap string value),
       move_to_dlq job_id error w = (w', Ret tt) /\
       queue_content (queue_key "dlq") w' =
         (queue_content (queue_key "dlq") w ++ [entry])%list /\
       entry !! "error" = Some (VStr error) /\
       entry !! "moved_to_dlq_at" = Some (VNum moved) /\
       moved = now (tick w) /\
       (steady 1 (ticks w) -> now w <= moved) /\
       (forall field, field <> "error" -> field <> "moved_to_dlq_at" ->
          entry !! field = job !! field) /\
       hashes (store w') = hashes (store w)) /\
  (hd None (faults w) = None ->
   hashes (store w) !! job_key job_id = None ->
   move_to_dlq job_id error w = (after_call (store w) w, Ret tt)).
Proof.
  split.
  - intros job Hok Hjob Hne.
    apply calls_ok_next in Hok as [H1 Hok]. apply calls_ok_next in Hok as [H2 _].
    unfold move_to_dlq, bind, hgetall, time_time.
    rewrite (store_call_ok _ _ H1). cbn [fst snd]. rewrite Hjob. cbn [from_option id].
    destruct (Nat.eqb_spec (size job) 0) as [Hz|_].
    { apply map_size_empty_iff in Hz. contradiction. }
    cbn [after_call store now ticks faults].
    rewrite rpush_ok by exact H2.
    eexists _, _, _. split; [reflexivity|].
    unfold queue_content at 1. cbn [after_call store lists hashes].
    rewrite lookup_insert_eq. cbn [from_option id].
    split; [reflexivity|].
    split; [rewrite lookup_insert_ne by discriminate; apply lookup_insert_eq|].
    split; [apply lookup_insert_eq|]. split; [reflexivity|].
    split; [intros Hs; apply steady_next in Hs as [Hs _]; lia|].
    split; [|reflexivity].
    intros field Hf1 Hf2. rewrite !lookup_insert_ne by congruence. reflexivity.
  - intros H1 Hnone. unfold move_to_dlq, bind, hgetall.
    rewrite (store_call_ok _ _ H1). cbn [fst snd]. rewrite Hnone. reflexivity.
Qed.

Lemma move_to_dlq_appends_one_entry_witness :
  let w := world submitted_pipeline in
  (calls_ok 2 (faults w) /\
   exists w' moved (entry : gmap string value),
     move_to_dlq sample_job_id "boom" w = (w', Ret tt) /\
     queue_content (queue_key "dlq") w' =
       (queue_content (queue_key "dlq") w ++ [entry])%list /\
     entry !! "error" = Some (VStr "boom") /\
     entry !! "moved_to_dlq_at" = Some (VNum moved) /\
     now w <= moved) /\
  (hd None (faults w) = None /\
   hashes (store w) !! job_key "ghost" = None /\
   move_to_dlq "ghost" "boom" w = (after_call (store w) w, Ret tt)).
Proof.
  cbv zeta.
  destruct (move_to_dlq_appends_one_entry (world submitted_pipeline) sample_job_id "boom")
    as [Hfound _].
  destruct (move_to_dlq_appends_one_entry (world submitted_pipeline) "ghost" "boom")
    as [_ Hmissing].
  split.
  - split; [exact I|].
    destruct (Hfound (default ∅ (hashes (store (world submitted_pipeline))
                                   !! job_key sample_job_id)) I)
      as (w' & moved & entry & H1 & H2 & H3 & H4 & _ & H5 & _).
    + vm_compute. reflexivity.
    + intros Habs. apply (f_equal (fun m : gmap string value => m !! "status")) in Habs.
      vm_compute in Habs. discriminate.
    + exists w', moved, entry. repeat apply conj; try assumption.
      apply H5. cbn. lia.
  - split; [reflexivity|]. split; [vm_compute; reflexivity|].
    apply Hmissing; vm_compute; reflexivity.
Defined.

End Records.

(** ** Profiles that pass validation *)

Section ValidProfiles.

Lemma validate_profile_catalogue (emotion intensity : string) :
  In emotion get_all_emotions ->
  In intensity ["light"; "medium"; "heavy"] ->
  validate_profile (get_emotion_profile (Some emotion) (Some intensity)) = (true, []).
Proof.
  rewrite get_all_emotions_eq. intros He Hi. simpl in He, Hi.
  repeat (destruct He as [<-|He]; [|]); try contradiction;
    (repeat (destruct Hi as [<-|Hi]; [|]); try contradiction;
     vm_compute; reflexivity).
Qed.

(** X7. [validate_profile] accepts the profile of a known emotion exactly when
    the intensity is light, medium or heavy; with any other intensity the
    selected camera is empty and has no movement.  The profile returned for an
    unknown emotion, the raw entry of curiosity, is rejected. *)
Theorem validate_profile_accepts_selected_profiles (emotion intensity : string) :
  (In emotion get_all_emotions ->
   (fst (validate_profile (get_emotion_profile (Some emotion) (Some intensity))) = true
    <-> In intensity ["light"; "medium"; "heavy"])) /\
  (~ In emotion get_all_emotions ->
   validate_profile (get_emotion_profile (Some emotion) (Some intensity)) =
   (false, ["Camera must have 'movement' field"; "VFX must be a list"])).
Proof.
  split.
  - intros He. split.
    + intros Hv.
      destruct (in_dec String.string_dec intensity ["light"; "medium"; "heavy"])
        as [Hin|Hnot]; [exact Hin|exfalso].
      destruct (dict_get emotion EMOTIONAL_INDEX) as [profile|] eqn:E.
      * unfold get_emotion_profile, dict_get_key in Hv. rewrite E in Hv.
        rewrite !(component_default emotion profile) in Hv;
          try assumption; try (simpl; tauto);
          try (intros i [= <-]; exact Hnot).
        cbn in Hv. discriminate.
      * rewrite get_all_emotions_eq in He. simpl in He.
        repeat (destruct He as [<-|He]; [vm_compute in E; discriminate|]).
        contradiction.
    + intros Hi. rewrite (validate_profile_catalogue _ _ He Hi). reflexivity.
  - intros Hnot. unfold get_emotion_profile, dict_get_key.
    rewrite (dict_get_None _ _ Hnot). reflexivity.
Qed.

Lemma validate_profile_accepts_selected_profiles_witness :
  (In "fear" get_all_emotions /\
   (fst (validate_profile (get_emotion_profile (Some "fear") (Some "extreme"))) = true
    <-> In "extreme" ["light"; "medium"; "heavy"])) /\
  (~ In "boredom" get_all_emotions /\
   validate_profile (get_emotion_profile (Some "boredom") (Some "light")) =
   (false, ["Camera must have 'movement' field"; "VFX must be a list"])).
Proof.
  assert (Hin : In "fear" get_all_emotions) by (vm_compute; tauto).
  assert (Hout : ~ In "boredom" get_all_emotions).
  { vm_compute. intuition discriminate. }
  split.
  - split; [exact Hin|].
    exact (proj1 (validate_profile_accepts_selected_profiles "fear" "extreme") Hin).
  - split; [exact Hout|].
    exact (proj2 (validate_profile_accepts_selected_profiles "boredom" "light") Hout).
Defined.

End ValidProfiles.

(** ** Submissions *)

Section Submissions.

(** X10. [submit_video_job] accepts a job only when it has no store.  With the
    store available it returns [None] for every input, valid or not: the
    submission to the store raises, the statistics count nothing and the
    store is as before, with no call made to it.  Without store a known
    emotion with one of the three intensities is accepted: the job id is
    made from the video id and the clock, and the submission is counted. *)
Theorem submit_video_job_accepts_only_without_store (p : Pipeline)
    (video_id : option string) (emotion intensity : string)
    (metadata : option pydict) :
  (redis_available p = true ->
   exists p',
     submit_video_job video_id emotion intensity metadata p = (p', Ret None) /\
     store (world p') = store (world p) /\
     faults (world p') = faults (world p) /\
     stats p' = stats p) /\
  (redis_available p = false ->
   In emotion get_all_emotions ->
   In intensity ["light"; "medium"; "heavy"] ->
   exists p',
     submit_video_job video_id emotion intensity metadata p =
       (p', Ret (Some (make_job_id video_id (now (tick (world p)))))) /\
     jobs_submitted (stats p') = S (jobs_submitted (stats p)) /\
     store (world p') = store (world p) /\
     faults (world p') = faults (world p)).
Proof.
  split.
  - intros Hav.
    destruct (submit_video_job_available p video_id emotion intensity metadata Hav)
      as (p' & Hrun & _ & Hs & Hf & Hst).
    exists p'. repeat apply conj; assumption.
  - intros Hav He Hi.
    unfold submit_video_job, try_except.
    rewrite (proj2 (member_In _ _) He), (proj2 (member_In _ _) Hi). cbn [negb].
    rewrite (validate_profile_catalogue _ _ He Hi). cbn [negb].
    rewrite (bind_ret_eq (read redis_available) _ _ _ _ eq_refl). rewrite Hav.
    erewrite bind_ret_eq;
      [|erewrite bind_ret_eq; [|apply lift_eq, time_time_eq]; reflexivity].
    eexists. split; [reflexivity|]. repeat apply conj; reflexivity.
Qed.

Lemma submit_video_job_accepts_only_without_store_witness :
  let local := init true ping_down_world in
  (redis_available fresh_pipeline = true /\
   exists p',
     submit_video_job (Some "video_009") "serenity" "light" None fresh_pipeline =
       (p', Ret None) /\
     store (world p') = store (world fresh_pipeline) /\
     faults (world p') = faults (world fresh_pipeline) /\
     stats p' = stats fresh_pipeline) /\
  (redis_available local = false /\
   In "serenity" get_all_emotions /\
   In "light" ["light"; "medium"; "heavy"] /\
   exists p',
     submit_video_job (Some "video_009") "serenity" "light" None local =
       (p', Ret (Some "video_009_1700000000000")) /\
     jobs_submitted (stats p') = S (jobs_submitted (stats local)) /\
     store (world p') = store (world local) /\
     faults (world p') = faults (world local)).
Proof.
  cbv zeta. split.
  - split; [reflexivity|].
    exact (proj1 (submit_video_job_accepts_only_without_store fresh_pipeline
                    (Some "video_009") "serenity" "light" None) eq_refl).
  - assert (He : In "serenity" get_all_emotions).
    { apply member_In. vm_compute. reflexivity. }
    assert (Hi : In "light" ["light"; "medium"; "heavy"]) by (left; reflexivity).
    split; [reflexivity|]. split; [exact He|]. split; [exact Hi|].
    exact (proj2 (submit_video_job_accepts_only_without_store
                    (init true ping_down_world) (Some "video_009") "serenity" "light"
                    None) eq_refl He Hi).
Defined.

End Submissions.

(** ** Without a store, and without a record *)

Section LocalMode.

(** X12. An orchestrator without store fails every job of a batch, valid or not:
    [batch_process] returns with no job successful and all of them failed,
    although the valid ones were given a job id.  The store is not called,
    and the statistics count neither a completed nor a failed job. *)
Theorem local_mode_batch_fails_every_job (jobs : list (gmap string string))
    (p : Pipeline) :
  redis_available p = false ->
  exists p' results,
    batch_process jobs p = (p', Ret results) /\
    total results = length jobs /\
    successful results = 0%nat /\
    failed results = length jobs /\
    store (world p') = store (world p) /\
    faults (world p') = faults (world p) /\
    jobs_completed (stats p') = jobs_completed (stats p) /\
    jobs_failed (stats p') = jobs_failed (stats p).
Proof.
  intros Hav.
  destruct (batch_loop_local jobs (mkResults (length jobs) 0 0 []) p Hav)
    as (p' & r & Hrun & Hsuc & Hfail & Hs & Hf & Hc & Hj).
  exists p', r. split; [exact Hrun|].
  destruct (batch_process_counts jobs r p p' Hrun) as [Ht _].
  cbn in Hsuc, Hfail. repeat apply conj; assumption.
Qed.

Lemma local_mode_batch_fails_every_job_witness :
  let p := init true ping_down_world in
  redis_available p = false /\
  exists p' results,
    batch_process two_jobs p = (p', Ret results) /\
    total results = length two_jobs /\
    successful results = 0%nat /\
    failed results = length two_jobs /\
    store (world p') = store (world p) /\
    faults (world p') = faults (world p) /\
    jobs_completed (stats p') = jobs_completed (stats p) /\
    jobs_failed (stats p') = jobs_failed (stats p).
Proof.
  cbv zeta. split; [reflexivity|].
  exact (local_mode_batch_fails_every_job two_jobs (init true ping_down_world) eq_refl).
Defined.

(** X13. [process_job] on a job id that has no record returns [False] after one
    reading of the clock and one call to the store.  The store and the
    statistics are as before: the job is not counted as failed and nothing
    goes to the dead-letter queue. *)
Theorem process_job_unknown_job (p : Pipeline) (job_id : string) :
  redis_available p = true ->
  hd None (faults (world p)) = None ->
  hashes (store (world p)) !! job_key job_id = None ->
  process_job job_id p =
  (mkPipeline (after_call (store (world p)) (tick (world p))) true
     (enable_quality_gates p) (stats p),
   Ret false).
Proof.
  intros Hav Hok Hnone. unfold process_job, try_except.
  erewrite bind_ret_eq; [|apply lift_eq, time_time_eq]. cbv beta.
  rewrite (bind_ret_eq (read redis_available) _ _ _ _ eq_refl).
  cbn [redis_available]. rewrite Hav. cbn [negb].
  assert (Hget : get_job_status job_id (tick (world p)) =
                 (after_call (store (tick (world p))) (tick (world p)), Ret None)).
  { unfold get_job_status, bind, hgetall.
    rewrite store_call_ok by exact Hok. cbn [fst snd].
    change (store (tick (world p))) with (store (world p)). rewrite Hnone.
    reflexivity. }
  run_step Hget. reflexivity.
Qed.

Lemma process_job_unknown_job_witness :
  redis_available fresh_pipeline = true /\
  hd None (faults (world fresh_pipeline)) = None /\
  hashes (store (world fresh_pipeline)) !! job_key "ghost" = None /\
  process_job "ghost" fresh_pipeline =
  (mkPipeline (after_call (store (world fresh_pipeline)) (tick (world fresh_pipeline)))
     true (enable_quality_gates fresh_pipeline) (stats fresh_pipeline),
   Ret false).
Proof.
  split; [reflexivity|]. split; [reflexivity|]. split; [reflexivity|].
  exact (process_job_unknown_job fresh_pipeline "ghost" eq_refl eq_refl eq_refl).
Defined.

(** X14. No run of [process_job] makes the status of any job failed: whether the
    run completes, gives up or is interrupted by an exception at any point, a
    status that was not failed before is not failed afterwards. *)
Theorem process_job_never_sets_failed (p : Pipeline) (job_id other : string) :
  not_failed other (world p) ->
  not_failed other (world (fst (process_job job_id p))).
Proof.
  intros H.
  apply (process_job_never_marks_failed job_id other p _ (snd (process_job job_id p)));
    [|exact H].
  destruct (process_job job_id p); reflexivity.
Qed.

Lemma process_job_never_sets_failed_witness :
  not_failed sample_job_id (world stage_fault_pipeline) /\
  snd (process_job sample_job_id stage_fault_pipeline) = Ret false /\
  not_failed sample_job_id (world (fst (process_job sample_job_id stage_fault_pipeline))).
Proof.
  assert (H : not_failed sample_job_id (world stage_fault_pipeline)).
  { unfold not_failed. vm_compute. discriminate. }
  split; [exact H|]. split; [vm_compute; reflexivity|].
  exact (process_job_never_sets_failed stage_fault_pipeline sample_job_id
           sample_job_id H).
Defined.

End LocalMode.

(** ** Operations that only read *)

Section Reads.

Lemma preserves_store_is_call {A} (s0 : Store) (op : Store -> Store * A) :
  (forall s, (op s).1 = s) -> preserves (store_is s0) (store_call op).
Proof.
  intros Hop w w' r. unfold store_call, store_is.
  destruct (hd None (faults w)) as [msg|].
  - intros [= <- _] H. exact H.
  - specialize (Hop (store w)). destruct (op (store w)) as [s' a].
    intros [= <- _] H. cbn [store fst] in *. congruence.
Qed.

Lemma preserves_store_is_time (s0 : Store) : preserves (store_is s0) time_time.
Proof. intros w w' r [= <- _] H. exact H. Qed.

Lemma preserves_for_each {S A} (I : S -> Prop) (xs : list A) (body : A -> M S unit) :
  (forall x, preserves I (body x)) -> preserves I (for_each xs body).
Proof.
  intros Hb. induction xs as [|x xs IH]; cbn [for_each].
  - apply preserves_ret.
  - apply preserves_bind; [apply Hb|]. intros _. exact IH.
Qed.

Lemma preserves_fold_each {S A B} (I : S -> Prop) (xs : list A) (acc : B)
    (body : B -> A -> M S B) :
  (forall acc x, preserves I (body acc x)) -> preserves I (fold_each xs acc body).
Proof.
  intros Hb. revert acc. induction xs as [|x xs IH]; intros acc; cbn [fold_each].
  - apply preserves_ret.
  - apply preserves_bind; [apply Hb|]. intros acc'. apply IH.
Qed.

Lemma preserves_health_check (s0 : Store) : preserves (store_is s0) health_check.
Proof.
  unfold health_check, check_queues, check_index, ping, llen, scan_iter.
  apply preserves_bind.
  { apply preserves_try_except; [|intros; apply preserves_ret].
    apply preserves_bind; [apply preserves_store_is_call; reflexivity|].
    intros; apply preserves_ret. }
  intros connected. destruct (negb connected); [apply preserves_ret|].
  apply preserves_bind.
  { apply preserves_try_except; [|intros; apply preserves_ret].
    apply preserves_bind; [|intros; apply preserves_ret].
    apply preserves_for_each. intros q.
    apply preserves_bind; [apply preserves_store_is_call; reflexivity|].
    intros; apply preserves_ret. }
  intros accessible. apply preserves_bind; [|intros; apply preserves_ret].
  apply preserves_try_except; [|intros; apply preserves_ret].
  apply preserves_bind; [apply preserves_store_is_call; reflexivity|].
  intros; apply preserves_ret.
Qed.

Lemma preserves_get_pipeline_metrics (s0 : Store) :
  preserves (store_is s0) get_pipeline_metrics.
Proof.
  unfold get_pipeline_metrics, llen, scan_iter, hgetall.
  apply preserves_bind; [apply preserves_store_is_time|]. intros timestamp.
  apply preserves_bind.
  { apply preserves_fold_each. intros acc q.
    apply preserves_bind; [apply preserves_store_is_call; reflexivity|].
    intros; apply preserves_ret. }
  intros lengths.
  apply preserves_bind; [apply preserves_store_is_call; reflexivity|]. intros keys.
  apply preserves_bind; [|intros; apply preserves_ret].
  apply preserves_fold_each. intros acc key.
  apply preserves_bind; [apply preserves_store_is_call; reflexivity|].
  intros; apply preserves_ret.
Qed.

Lemma preserves_run {S A} (I : S -> Prop) (m : M S A) (s : S) :
  preserves I m -> I s -> I (fst (m s)).
Proof.
  intros Hm H. apply (Hm s (fst (m s)) (snd (m s))); [|exact H].
  destruct (m s); reflexivity.
Qed.

Lemma health_check_returns (w : World) : exists h, snd (health_check w) = Ret h.
Proof.
  destruct (try_except_returns (ping ;; ret true) false w) as (w1 & connected & H1).
  unfold health_check. erewrite bind_ret_eq; [|exact H1].
  destruct (negb connected); [eexists; reflexivity|].
  destruct (check_queues_returns w1) as (w2 & accessible & H2).
  erewrite bind_ret_eq; [|exact H2].
  destruct (check_index_returns w2) as (w3 & loaded & H3).
  erewrite bind_ret_eq; [|exact H3].
  eexists. reflexivity.
Qed.

(** X15. The reporting operations never write: whatever their outcome and whatever
    fails, [health_check], [get_pipeline_metrics], [get_job_status] and
    [get_queue_length] leave the store as it is, and so do
    [validate_pipeline] and [get_pipeline_status].  Moreover [health_check]
    and [validate_pipeline] never raise. *)
Theorem reports_never_write (w : World) (p : Pipeline) (job_id service : string) :
  store (fst (health_check w)) = store w /\
  store (fst (get_pipeline_metrics w)) = store w /\
  store (fst (get_job_status job_id w)) = store w /\
  store (fst (get_queue_length service w)) = store w /\
  store (world (fst (validate_pipeline p))) = store (world p) /\
  store (world (fst (get_pipeline_status p))) = store (world p) /\
  (exists h, snd (health_check w) = Ret h) /\
  (exists v, snd (validate_pipeline p) = Ret v).
Proof.
  split; [apply (preserves_run (store_is (store w))); [apply preserves_health_check|reflexivity]|].
  split; [apply (preserves_run (store_is (store w)));
          [apply preserves_get_pipeline_metrics|reflexivity]|].
  split.
  { apply (preserves_run (store_is (store w))); [|reflexivity].
    unfold get_job_status, hgetall.
    apply preserves_bind; [apply preserves_store_is_call; reflexivity|].
    intros; apply preserves_ret. }
  split.
  { apply (preserves_run (store_is (store w))); [|reflexivity].
    unfold get_queue_length, llen.
    destruct (dict_get service queues); [|apply preserves_ret].
    apply preserves_store_is_call; reflexivity. }
  split.
  { apply (preserves_run (fun q => store_is (store (world p)) (world q)));
      [|reflexivity].
    unfold validate_pipeline. cbv zeta.
    apply preserves_bind; [apply preserves_read|]. intros available.
    apply preserves_bind; [|intros; apply preserves_ret].
    destruct (negb available); [apply preserves_ret|].
    apply preserves_bind; [apply preserves_lift, preserves_health_check|].
    intros; apply preserves_ret. }
  split.
  { apply (preserves_run (fun q => store_is (store (world p)) (world q)));
      [|reflexivity].
    unfold get_pipeline_status.
    apply preserves_bind; [apply preserves_read|]. intros available.
    apply preserves_bind; [apply preserves_read|]. intros statistics.
    cbv zeta. destruct available; [|apply preserves_ret].
    apply preserves_bind; [apply preserves_lift, preserves_get_pipeline_metrics|].
    intros m.
    apply preserves_bind; [apply preserves_lift, preserves_health_check|].
    intros; apply preserves_ret. }
  split; [apply health_check_returns|].
  unfold validate_pipeline. cbv zeta.
  rewrite (bind_ret_eq (read redis_available) _ _ _ _ eq_refl).
  destruct (negb (redis_available p)); [eexists; reflexivity|].
  unfold bind at 1. unfold bind at 1. unfold lift.
  destruct (health_check_returns (world p)) as [h Hh].
  destruct (health_check (world p)) as [w' r]. cbn [snd] in Hh. subst r.
  eexists. reflexivity.
Qed.

End Reads.

(** ** Health and seeding *)

Section Reports.

Lemma store_call_no_faults {A} (op : Store -> Store * A) (w : World) :
  no_faults (faults w) ->
  store_call op w = (after_call (op (store w)).1 w, Ret (op (store w)).2) /\
  no_faults (faults (after_call (op (store w)).1 w)).
Proof.
  intros H. destruct (no_faults_next _ H) as [Hhd Htl].
  split; [apply store_call_ok; exact Hhd|exact Htl].
Qed.

(** Reading the lengths of some queues, one call each. *)
Lemma fold_each_llen (qs : list (string * string)) (acc : list (string * nat))
    (w : World) :
  no_faults (faults w) ->
  exists w',
    fold_each qs acc (fun lengths q =>
      length <- llen (snd q) ;;
      ret (lengths ++ [(fst q, length)])%list) w =
    (w', Ret (acc ++ map (fun q => (fst q, length (queue_content (snd q) w))) qs)%list) /\
    store w' = store w /\ now w' = now w /\ ticks w' = ticks w /\
    no_faults (faults w').
Proof.
  revert acc w. induction qs as [|q qs IH]; intros acc w Hok.
  - exists w. cbn [fold_each map]. rewrite app_nil_r. repeat apply conj; try reflexivity.
    exact Hok.
  - cbn [fold_each map]. unfold llen at 1.
    destruct (store_call_no_faults
                (fun s => (s, length (default [] (lists s !! snd q)))) w Hok)
      as [Hcall Hok1].
    cbn [fst snd] in Hcall, Hok1.
    erewrite bind_ret_eq; [|erewrite bind_ret_eq; [|exact Hcall]; reflexivity].
    destruct (IH (acc ++ [(fst q, length (default [] (lists (store w) !! snd q)))])%list
                (after_call (store w) w) Hok1) as (w' & Hrun & Hs & Hn & Ht & Hok').
    exists w'. split.
    + rewrite Hrun. rewrite <- app_assoc. reflexivity.
    + repeat apply conj; assumption.
Qed.

Lemma for_each_llen (qs : list (string * string)) (w : World) :
  no_faults (faults w) ->
  exists w',
    for_each qs (fun q => llen (snd q) ;; ret tt) w = (w', Ret tt) /\
    store w' = store w /\ now w' = now w /\ ticks w' = ticks w /\
    no_faults (faults w').
Proof.
  revert w. induction qs as [|q qs IH]; intros w Hok.
  - exists w. repeat apply conj; try reflexivity. exact Hok.
  - cbn [for_each]. unfold llen at 1.
    destruct (store_call_no_faults
                (fun s => (s, length (default [] (lists s !! snd q)))) w Hok)
      as [Hcall Hok1].
    cbn [fst snd] in Hcall, Hok1.
    erewrite bind_ret_eq; [|erewrite bind_ret_eq; [|exact Hcall]; reflexivity].
    destruct (IH (after_call (store w) w) Hok1) as (w' & Hrun & Hs & Hn & Ht & Hok').
    exists w'. repeat apply conj; assumption.
Qed.

(** With a store that does not fail, [health_check] finds the store
    connected and the queues accessible, and reports the index as loaded
    exactly when at least 24 keys start with [emotional_vertices:]. *)
Lemma health_check_reliable (w : World) :
  no_faults (faults w) ->
  exists w',
    health_check w =
    (w', Ret (mkHealth true true (Nat.leb 24 (length (index_keys (store w)))))) /\
    store w' = store w /\ no_faults (faults w').
Proof.
  intros Hok.
  destruct (store_call_no_faults (fun s => (s, tt)) w Hok) as [Hping Hok1].
  cbn [fst snd] in Hping, Hok1.
  destruct (for_each_llen queues _ Hok1) as (w2 & Hq & Hs2 & _ & _ & Hok2).
  destruct (store_call_no_faults
              (fun s => (s, matching_keys "emotional_vertices:" s)) w2 Hok2)
    as [Hscan Hok3].
  cbn [fst snd] in Hscan, Hok3.
  unfold health_check.
  erewrite bind_ret_eq;
    [|unfold try_except, ping; erewrite bind_ret_eq; [|exact Hping]; reflexivity].
  cbn [negb].
  erewrite bind_ret_eq;
    [|unfold check_queues, try_except; erewrite bind_ret_eq; [|exact Hq]; reflexivity].
  erewrite bind_ret_eq;
    [|unfold check_index, try_except, scan_iter;
      erewrite bind_ret_eq; [|exact Hscan]; reflexivity].
  eexists. split; [|split; [|exact Hok3]].
  - unfold index_keys. rewrite Hs2. reflexivity.
  - cbn [after_call store]. exact Hs2.
Qed.

(** A loop of successful writes that lose no hash. *)
(** X16. [seed_redis] never seeds the store.  Without a client it returns
    [False].  With a client its first write is refused with [DataError],
    because the mapping holds the camera and color dicts and the vfx list of
    the catalogue as they are, and the exception leaves [seed_redis]: the
    store is as before and no call has reached it. *)
Theorem seed_redis_never_seeds (w : World) :
  seed_redis false w = (w, Ret false) /\
  seed_redis true w = (w, Raise DataError).
Proof.
  split; [reflexivity|].
  unfold seed_redis. cbn [negb].
  destruct EMOTIONAL_INDEX as [|[emotion profile] rest] eqn:E; [discriminate|].
  cbn [for_each].
  erewrite bind_raise_eq; [reflexivity|].
  erewrite bind_raise_eq; [reflexivity|].
  erewrite bind_raise_eq; [reflexivity|].
  injection E as <- <- _.
  eapply (hset_refused _ _ "camera"); vm_compute; reflexivity.
Qed.

End Reports.

(** ** Metrics and the validation of the pipeline *)

Section MetricsReports.

Lemma fold_each_count (keys : list string) (counts : nat * nat) (w : World) :
  no_faults (faults w) ->
  exists w',
    fold_each keys counts (fun counts key =>
      job_data <- hgetall key ;;
      let failed := if says_failed job_data then S (snd counts) else snd counts in
      ret (S (fst counts), failed)) w =
    (w', Ret ((fst counts + length keys)%nat,
              (snd counts +
               length (List.filter
                         (fun k => says_failed (default ∅ (hashes (store w) !! k)))
                         keys))%nat)) /\
    store w' = store w /\ no_faults (faults w').
Proof.
  revert counts w. induction keys as [|key keys IH]; intros [total failed] w Hok.
  - exists w. cbn [fold_each List.filter length fst snd]. rewrite !Nat.add_0_r.
    repeat apply conj; try reflexivity. exact Hok.
  - cbn [fold_each]. unfold hgetall at 1.
    destruct (store_call_no_faults (fun s => (s, default ∅ (hashes s !! key))) w Hok)
      as [Hcall Hok1].
    cbn [fst snd] in Hcall, Hok1.
    erewrite bind_ret_eq; [|erewrite bind_ret_eq; [|exact Hcall]; reflexivity].
    cbn [fst snd].
    destruct (IH (S total,
                  if says_failed (default ∅ (hashes (store w) !! key))
                  then S failed else failed)
                (after_call (store w) w) Hok1) as (w' & Hrun & Hs & Hok').
    exists w'. split; [|split; assumption].
    cbv zeta in Hrun |- *. rewrite Hrun. cbn [fst snd after_call store List.filter length].
    f_equal. f_equal. f_equal; [lia|].
    destruct (says_failed (default ∅ (hashes (store w) !! key))); cbn [length]; lia.
Qed.

Lemma get_pipeline_metrics_result (w : World) :
  no_faults (faults w) ->
  exists w' m,
    get_pipeline_metrics w = (w', Ret m) /\
    no_faults (faults w') /\
    queue_lengths m =
      map (fun q => (fst q, length (queue_content (snd q) w))) queues /\
    total_jobs m = length (state_keys (store w)) /\
    failed_jobs m =
      length (List.filter
                (fun k => says_failed (default ∅ (hashes (store w) !! k)))
                (state_keys (store w))) /\
    timestamp m = now (tick w).
Proof.
  intros Hok. unfold get_pipeline_metrics.
  erewrite bind_ret_eq; [|apply time_time_eq].
  change (faults w) with (faults (tick w)) in Hok.
  destruct (fold_each_llen queues [] (tick w) Hok) as (w1 & Hq & Hs1 & _ & _ & Hok1).
  erewrite bind_ret_eq; [|exact Hq].
  destruct (store_call_no_faults
              (fun s => (s, matching_keys (state_prefix +:+ ":") s)) w1 Hok1)
    as [Hscan Hok2].
  cbn [fst snd] in Hscan, Hok2.
  erewrite bind_ret_eq; [|exact Hscan].
  destruct (fold_each_count (matching_keys (state_prefix +:+ ":") (store w1))
              (0%nat, 0%nat) _ Hok2) as (w2 & Hc & _ & Hok3).
  erewrite bind_ret_eq; [|exact Hc].
  eexists _, _. split; [reflexivity|]. split; [exact Hok3|].
  cbn [queue_lengths total_jobs failed_jobs timestamp fst snd after_call store].
  rewrite Hs1. change (store (tick w)) with (store w).
  unfold state_keys.
  split; [reflexivity|]. split; [reflexivity|]. split; reflexivity.
Qed.

(** X17. With a store that does not fail, [get_pipeline_metrics] returns the
    length of each of the six queues, counts every key with the state prefix
    as a job, and counts as failed those whose record says failed; so the
    failed jobs are never more than the total.  The timestamp is the reading
    of the wall clock at the start of the call, which is not before the last
    reading unless the clock is set back. *)
Theorem get_pipeline_metrics_counts (w : World) :
  no_faults (faults w) ->
  exists w' m,
    get_pipeline_metrics w = (w', Ret m) /\
    queue_lengths m =
      map (fun q => (fst q, length (queue_content (snd q) w))) queues /\
    total_jobs m = length (state_keys (store w)) /\
    failed_jobs m =
      length (List.filter
                (fun k => says_failed (default ∅ (hashes (store w) !! k)))
                (state_keys (store w))) /\
    (failed_jobs m <= total_jobs m)%nat /\
    timestamp m = now (tick w) /\
    (steady 1 (ticks w) -> now w <= timestamp m).
Proof.
  intros Hok.
  destruct (get_pipeline_metrics_result w Hok)
    as (w' & m & Hm & _ & Hlen & Htotal & Hfailed & Hnow).
  exists w', m. repeat apply conj; try assumption.
  - rewrite Htotal, Hfailed. apply List.filter_length_le.
  - intros Hs. rewrite Hnow. apply (tick_steady 0 w Hs).
Qed.

Lemma get_pipeline_metrics_counts_witness :
  no_faults (faults (world completed_pipeline)) /\
  exists w' m,
    get_pipeline_metrics (world completed_pipeline) = (w', Ret m) /\
    queue_lengths m =
      map (fun q => (fst q, length (queue_content (snd q) (world completed_pipeline))))
        queues /\
    total_jobs m = length (state_keys (store (world completed_pipeline))) /\
    failed_jobs m =
      length (List.filter
                (fun k => says_failed
                            (default ∅ (hashes (store (world completed_pipeline)) !! k)))
                (state_keys (store (world completed_pipeline)))) /\
    (failed_jobs m <= total_jobs m)%nat /\
    now (world completed_pipeline) <= timestamp m.
Proof.
  assert (H : no_faults (faults (world completed_pipeline))).
  { intros n. destruct n; exact I. }
  split; [exact H|].
  destruct (get_pipeline_metrics_counts (world completed_pipeline) H)
    as (w' & m & H1 & H2 & H3 & H4 & H5 & _ & H6).
  exists w', m. repeat apply conj; try assumption. apply H6. exact I.
Defined.

Lemma reset_pipeline_clears_all (w : World) :
  no_faults (faults w) ->
  exists w',
    reset_pipeline true w = (w', Ret true) /\
    no_faults (faults w') /\
    (forall q, In q queues -> lists (store w') !! snd q = None) /\
    (forall k, String.prefix (state_prefix +:+ ":") k = true ->
       hashes (store w') !! k = None /\ lists (store w') !! k = None).
Proof.
  intros Hok.
  destruct (for_each_delete snd queues w Hok) as (w1 & Hrun1 & Hok1 & Hin1 & _).
  pose proof (no_faults_next _ Hok1) as [Hhd Hok2].
  set (keys := matching_keys (state_prefix +:+ ":") (store w1)).
  destruct (for_each_delete (fun k => k) keys (after_call (store w1) w1) Hok2)
    as (w2 & Hrun2 & Hok3 & Hin2 & Hout2).
  rewrite list_fmap_id in Hin2, Hout2.
  exists w2. split; [|split; [exact Hok3|split]].
  - unfold reset_pipeline. cbn [negb]. unfold try_except, bind.
    rewrite Hrun1. unfold scan_iter. rewrite (store_call_ok _ _ Hhd).
    cbn [fst snd]. fold keys.
    change (for_each keys delete_key) with (for_each keys (fun k => delete_key k)).
    rewrite Hrun2. reflexivity.
  - intros q Hq. destruct (decide (snd q ∈ keys)) as [Hk|Hk].
    + apply (Hin2 _ Hk).
    + rewrite (proj2 (Hout2 _ Hk)). cbn [after_call store].
      apply Hin1. apply list_elem_of_fmap. exists q. split; [reflexivity|].
      by apply list_elem_of_In.
  - intros k Hp. destruct (decide (k ∈ keys)) as [Hk|Hk]; [exact (Hin2 _ Hk)|].
    destruct (Hout2 _ Hk) as [-> ->]. cbn [after_call store].
    assert (Hdom : k ∉ dom (hashes (store w1)) ∪ dom (lists (store w1))).
    { intros Hd. apply Hk. unfold keys, matching_keys.
      apply list_elem_of_filter. split; [exact Hp|].
      apply elem_of_elements. exact Hd. }
    apply not_elem_of_union in Hdom as [Hh Hl].
    split; apply not_elem_of_dom; assumption.
Qed.

(** X18. After a confirmed reset with a store that does not fail,
    [get_pipeline_metrics] finds nothing left: no job, no failed job, and
    length 0 for each of the six queues. *)
Theorem metrics_after_reset_are_zero (w : World) :
  no_faults (faults w) ->
  exists w1 w2 m,
    reset_pipeline true w = (w1, Ret true) /\
    get_pipeline_metrics w1 = (w2, Ret m) /\
    total_jobs m = 0%nat /\
    failed_jobs m = 0%nat /\
    queue_lengths m = map (fun q => (fst q, 0%nat)) queues.
Proof.
  intros Hok.
  destruct (reset_pipeline_clears_all w Hok) as (w1 & Hreset & Hok1 & Hq & Hk).
  destruct (get_pipeline_metrics_result w1 Hok1)
    as (w2 & m & Hm & _ & Hlen & Htotal & Hfailed & _).
  exists w1, w2, m. split; [exact Hreset|]. split; [exact Hm|].
  assert (Hkeys : state_keys (store w1) = []).
  { unfold state_keys, matching_keys.
    destruct (base.filter _ _) as [|k rest] eqn:E; [reflexivity|exfalso].
    assert (Hin : k ∈ k :: rest) by (left).
    rewrite <- E in Hin. apply list_elem_of_filter in Hin as [Hp Hin].
    apply elem_of_elements, elem_of_union in Hin.
    destruct (Hk k Hp) as [Hh Hl].
    destruct Hin as [Hin|Hin]; apply elem_of_dom in Hin as [x Hx]; congruence. }
  rewrite Hkeys in Htotal, Hfailed.
  split; [exact Htotal|]. split; [exact Hfailed|].
  rewrite Hlen. apply map_ext_in. intros q Hin. f_equal.
  unfold queue_content. rewrite (Hq q Hin). reflexivity.
Qed.

Lemma metrics_after_reset_are_zero_witness :
  no_faults (faults (world completed_pipeline)) /\
  exists w1 w2 m,
    reset_pipeline true (world completed_pipeline) = (w1, Ret true) /\
    get_pipeline_metrics w1 = (w2, Ret m) /\
    total_jobs m = 0%nat /\
    failed_jobs m = 0%nat /\
    queue_lengths m = map (fun q => (fst q, 0%nat)) queues.
Proof.
  assert (H : no_faults (faults (world completed_pipeline))).
  { intros n. destruct n; exact I. }
  split; [exact H|].
  exact (metrics_after_reset_are_zero (world completed_pipeline) H).
Defined.

(** X19. [validate_pipeline] depends on the store alone.  Without store the
    pipeline is not valid, although the issue calls the store optional.  With
    the store available and answering it is valid, whether the index was
    seeded or not.  With the store available but not answering the connection
    test, both the connection and the queues are reported. *)
Theorem validate_pipeline_depends_on_store (p : Pipeline) :
  (redis_available p = false ->
   validate_pipeline p =
   (p, Ret (false, ["Redis unavailable (optional, local mode available)"]))) /\
  (redis_available p = true -> no_faults (faults (world p)) ->
   exists p', validate_pipeline p = (p', Ret (true, []))) /\
  (forall msg, redis_available p = true -> hd None (faults (world p)) = Some msg ->
   exists p',
     validate_pipeline p =
     (p', Ret (false, ["Redis connection failed"; "Redis queues not accessible"]))).
Proof.
  split; [|split].
  - intros Hav. unfold validate_pipeline. cbv zeta.
    rewrite (bind_ret_eq (read redis_available) _ _ _ _ eq_refl). rewrite Hav.
    reflexivity.
  - intros Hav Hok. unfold validate_pipeline. cbv zeta.
    rewrite (bind_ret_eq (read redis_available) _ _ _ _ eq_refl). rewrite Hav.
    destruct (health_check_reliable (world p) Hok) as (w' & Hh & _ & _).
    cbn [negb].
    erewrite bind_ret_eq;
      [|erewrite bind_ret_eq; [|apply lift_eq; exact Hh]; reflexivity].
    eexists. reflexivity.
  - intros msg Hav Hf. unfold validate_pipeline. cbv zeta.
    rewrite (bind_ret_eq (read redis_available) _ _ _ _ eq_refl). rewrite Hav.
    cbn [negb].
    assert (Hh : health_check (world p) =
                 (after_call (store (world p)) (world p),
                  Ret (mkHealth false false false))).
    { unfold health_check, bind, try_except, ping.
      rewrite (store_call_fault _ _ msg Hf). reflexivity. }
    erewrite bind_ret_eq;
      [|erewrite bind_ret_eq; [|apply lift_eq; exact Hh]; reflexivity].
    eexists. reflexivity.
Qed.

Lemma validate_pipeline_depends_on_store_witness :
  let down := mkPipeline ping_down_world true true (mkStats 0 0 0 0) in
  (redis_available (init true ping_down_world) = false /\
   snd (validate_pipeline (init true ping_down_world)) =
   Ret (false, ["Redis unavailable (optional, local mode available)"])) /\
  (redis_available fresh_pipeline = true /\
   no_faults (faults (world fresh_pipeline)) /\
   exists p', validate_pipeline fresh_pipeline = (p', Ret (true, []))) /\
  (redis_available down = true /\
   hd None (faults (world down)) = Some "Connection refused" /\
   exists p',
     validate_pipeline down =
     (p', Ret (false, ["Redis connection failed"; "Redis queues not accessible"]))).
Proof.
  cbv zeta.
  assert (H : no_faults (faults (world fresh_pipeline))).
  { intros n. destruct n; exact I. }
  split; [|split].
  - split; [reflexivity|].
    rewrite (proj1 (validate_pipeline_depends_on_store (init true ping_down_world))
               eq_refl).
    reflexivity.
  - split; [reflexivity|]. split; [exact H|].
    exact (proj1 (proj2 (validate_pipeline_depends_on_store fresh_pipeline)) eq_refl H).
  - split; [reflexivity|]. split; [reflexivity|].
    exact (proj2 (proj2 (validate_pipeline_depends_on_store
                           (mkPipeline ping_down_world true true (mkStats 0 0 0 0))))
             "Connection refused" eq_refl eq_refl).
Defined.

End MetricsReports.

(** ** The filter chain and the quality gate *)

Section FilterChain.

(** X20. As [process_job] calls it, the quality gate never warns.  [process_job]
    passes the color settings of the profile, and [validate_output] looks in
    its argument for a ["color"] entry, which color settings do not have: for
    every emotion and intensity the three values checked are the defaults,
    and the result is a pass without warnings. *)
Theorem quality_gate_never_warns (emotion intensity : option string) :
  validate_output
    (default (PDict [])
       (dict_get "color" (get_emotion_profile emotion intensity))) =
  Ret (true, []).
Proof.
  destruct emotion as [e|]; [|reflexivity].
  destruct (dict_get e EMOTIONAL_INDEX) as [profile|] eqn:E.
  - assert (Hdflt : (forall i, intensity = Some i ->
                       ~ In i ["light"; "medium"; "heavy"]) ->
                    validate_output
                      (default (PDict [])
                         (dict_get "color" (get_emotion_profile (Some e) intensity))) =
                    Ret (true, [])).
    { intros Hi. unfold get_emotion_profile, dict_get_key. rewrite E.
      rewrite !(component_default e profile) by (try assumption; simpl; tauto).
      reflexivity. }
    destruct intensity as [i|]; [|apply Hdflt; discriminate].
    destruct (in_dec String.string_dec i ["light"; "medium"; "heavy"]) as [Hin|Hnot].
    + clear Hdflt. apply dict_get_In in E.
      apply (in_map fst) in E. simpl in E.
      repeat (destruct E as [E|E];
              [subst e; simpl in Hin;
               repeat (destruct Hin as [<-|Hin]; [vm_compute; reflexivity|]);
               contradiction|]).
      contradiction.
    + apply Hdflt. intros i' [= <-]. exact Hnot.
  - unfold get_emotion_profile, dict_get_key. rewrite E. reflexivity.
Qed.

Lemma Qgtb_lt (a b : Q) : Qgtb a b = true <-> (b < a)%Q.
Proof.
  unfold Qgtb. rewrite negb_true_iff. split.
  - intros H. apply Qnot_le_lt. intros Hle.
    apply Qle_bool_iff in Hle. congruence.
  - intros H. destruct (Qle_bool a b) eqn:E; [|reflexivity].
    apply Qle_bool_iff in E. exfalso. exact (Qlt_not_le _ _ H E).
Qed.

(** X21. The quality gate fails only when all three limits are exceeded: on a
    profile with numeric saturation, contrast and vignette, [validate_output]
    does not pass exactly when the saturation is beyond 50 either way, the
    contrast above 2.0 and the vignette above 0.8.  One or two excesses give
    warnings and a pass. *)
Theorem validate_output_fails_on_three_excesses (saturation contrast vignette : Q) :
  exists passes warnings,
    validate_output
      (PDict [("color", PDict [("saturation", PNum saturation);
                               ("contrast", PNum contrast);
                               ("vignette", PNum vignette)])]) =
    Ret (passes, warnings) /\
    (passes = false <->
     (50 < Qabs saturation /\ 2.0 < contrast /\ 0.8 < vignette)%Q) /\
    (length warnings <= 3)%nat.
Proof.
  unfold validate_output. cbn [get_target res_bind dict_get String.eqb Ascii.eqb
                                 Bool.eqb from_option id as_number].
  unfold max_contrast, max_vignette.
  pose proof (Qgtb_lt (Qabs saturation) 50) as H1.
  pose proof (Qgtb_lt contrast 2.0) as H2.
  pose proof (Qgtb_lt vignette 0.8) as H3.
  destruct (Qgtb (Qabs saturation) 50) eqn:E1, (Qgtb contrast 2.0) eqn:E2,
           (Qgtb vignette 0.8) eqn:E3;
    eexists _, _; (split; [reflexivity|]); cbn [length app Nat.leb];
    (split; [|lia]); (split; [intros Hp|intros (A & B & C)]);
    try discriminate Hp; try reflexivity;
    try (repeat apply conj; [apply H1|apply H2|apply H3]; reflexivity);
    first [apply H1 in A; discriminate A
          |apply H2 in B; discriminate B
          |apply H3 in C; discriminate C].
Qed.

(** The values of the test suite: the first profile passes, the second
    exceeds all three limits. *)
Example validate_output_test_profiles :
  (exists warnings,
     validate_output
       (PDict [("color", PDict [("saturation", PNum 20); ("contrast", PNum 1.5);
                                ("vignette", PNum 0.4)])]) = Ret (true, warnings)) /\
  (exists warnings,
     validate_output
       (PDict [("color", PDict [("saturation", PNum 100); ("contrast", PNum 3.0);
                                ("vignette", PNum 0.9)])]) = Ret (false, warnings)).
Proof. split; eexists; vm_compute; reflexivity. Qed.

Lemma template_of_known (name : pyval) (text : string) :
  template_of name = Ret (Some text) ->
  exists key, dict_get key filter_templates = Some text.
Proof.
  destruct name; cbn; try discriminate.
  intros [= H]. eauto.
Qed.

Lemma add_effects_spec (effects : list pyval) (filters chain : list filter) :
  add_effects effects filters = Ret chain ->
  Forall from_templates filters ->
  Forall from_templates chain /\
  (length chain <= length filters + length effects)%nat.
Proof.
  revert filters. induction effects as [|effect rest IH]; intros filters.
  - cbn. intros [= <-] H. split; [exact H|lia].
  - cbn [add_effects length]. destruct (template_of effect) as [t|msg] eqn:E;
      [|discriminate]. cbn [res_bind]. intros Hrun Hall.
    destruct t as [text|].
    + apply IH in Hrun as [H1 H2].
      * split; [exact H1|]. rewrite length_app in H2. cbn in H2. lia.
      * apply Forall_app. split; [exact Hall|].
        constructor; [|constructor]. exact (template_of_known _ _ E).
    + apply IH in Hrun as [H1 H2]; [|exact Hall]. split; [exact H1|lia].
Qed.

(** X22. Whatever the profile, a filter chain that [generate_filter_chain]
    returns holds no template text of its own making: every template in it is
    a value of [filter_templates].  The chain has at most one filter for the
    camera, one for the grade and one for the vignette, and at most one more
    for each effect. *)
Theorem generate_filter_chain_uses_templates (profile : pydict) (chain : list filter) :
  generate_filter_chain profile = Ret chain ->
  Forall from_templates chain /\
  exists effects,
    iterate (default (PList []) (dict_get "vfx" profile)) = Ret effects /\
    (length chain <= 3 + length effects)%nat.
Proof.
  unfold generate_filter_chain. cbv zeta. intros H.
  destruct (get_target (default (PDict []) (dict_get "camera" profile)))
    as [camera|]; cbn [res_bind] in H; [|discriminate].
  destruct (get_target (default (PDict []) (dict_get "color" profile)))
    as [color|]; cbn [res_bind] in H; [|discriminate].
  destruct (truthy (default PNone (dict_get "movement" camera)));
    [destruct (template_of (default PNone (dict_get "movement" camera)))
       as [[text1|]|] eqn:E1|];
    cbn [res_bind] in H; try discriminate H;
    (destruct (truthy (default PNone (dict_get "grade" color)));
     [destruct (template_of (default PNone (dict_get "grade" color)))
        as [[text2|]|] eqn:E2;
      [| destruct (as_number (default (PNum 0) (dict_get "saturation" color)))|]|];
     cbn [res_bind] in H; try discriminate H;
     destruct (truthy (default PNone (dict_get "vignette" color)));
     (destruct (iterate (default (PList []) (dict_get "vfx" profile)))
        as [effects|]; cbn [res_bind] in H; [|discriminate H];
      apply add_effects_spec in H as [Hall Hlen];
      [split; [exact Hall|];
       exists effects; split; [reflexivity|];
       rewrite ?length_app in Hlen; cbn [length] in Hlen; lia
      |repeat (apply Forall_app; split); repeat constructor;
       cbn [from_templates]; try exact I;
       eapply template_of_known; eassumption])).
Qed.

Lemma generate_filter_chain_uses_templates_witness :
  let profile := get_emotion_profile (Some "curiosity") (Some "heavy") in
  exists chain,
    generate_filter_chain profile = Ret chain /\
    Forall from_templates chain /\
    exists effects,
      iterate (default (PList []) (dict_get "vfx" profile)) = Ret effects /\
      (length chain <= 3 + length effects)%nat.
Proof.
  cbv zeta.
  assert (H : exists chain,
            generate_filter_chain (get_emotion_profile (Some "curiosity") (Some "heavy"))
            = Ret chain).
  { eexists. vm_compute. reflexivity. }
  destruct H as [chain H]. exists chain. split; [exact H|].
  exact (generate_filter_chain_uses_templates _ chain H).
Defined.

End FilterChain.

(** ** What a batch completes, and an exception that escapes *)

Section Outcomes.

(** X23. [batch_process] never completes a job.  For every list of job
    specifications and in every state of the orchestrator and of the store,
    it returns with no job successful and every job failed: with the store
    available no submission is accepted, and without store no accepted job
    is processed.  The store is as before, no call has reached it, and the
    statistics count neither a completed nor a failed job. *)
Theorem batch_process_never_completes_a_job (jobs : list (gmap string string))
    (p : Pipeline) :
  exists p' results,
    batch_process jobs p = (p', Ret results) /\
    total results = length jobs /\
    successful results = 0%nat /\
    failed results = length jobs /\
    store (world p') = store (world p) /\
    faults (world p') = faults (world p) /\
    jobs_completed (stats p') = jobs_completed (stats p) /\
    jobs_failed (stats p') = jobs_failed (stats p).
Proof.
  destruct (batch_loop_fails_all jobs (mkResults (length jobs) 0 0 []) p)
    as (p' & results & Hrun & Hsuc & Hfail & Hs & Hf & Hc & Hj).
  exists p', results. split; [exact Hrun|].
  destruct (batch_process_counts jobs results p p' Hrun) as [Ht _].
  cbn in Hsuc, Hfail. repeat apply conj; assumption.
Qed.

(** X8. The handler of [process_job] is not guarded.  When the store raises on
    the first call of [process_job], the read of the record, and again on the
    next call, the read that [move_to_dlq] makes in the handler, the second
    exception leaves [process_job]: the job is counted as failed, nothing is
    written, and the caller gets an exception where [False] was to be
    returned. *)
Theorem process_job_raises_from_its_handler (p : Pipeline)
    (job_id msg1 msg2 : string) (rest : list (option string)) :
  redis_available p = true ->
  faults (world p) = Some msg1 :: Some msg2 :: rest ->
  exists p',
    process_job job_id p = (p', Raise msg2) /\
    jobs_failed (stats p') = S (jobs_failed (stats p)) /\
    store (world p') = store (world p) /\
    faults (world p') = rest.
Proof.
  intros Hav Hf.
  assert (H1 : get_job_status job_id (tick (world p)) =
               (mkWorld (store (world p)) (now (tick (world p)))
                  (ticks (tick (world p))) (Some msg2 :: rest), Raise msg1)).
  { unfold get_job_status, hgetall. erewrite bind_raise_eq; [reflexivity|].
    unfold store_call. change (faults (tick (world p))) with (faults (world p)).
    rewrite Hf. reflexivity. }
  eexists. split.
  - unfold process_job, try_except.
    erewrite bind_ret_eq; [|apply lift_eq, time_time_eq]. cbv beta.
    rewrite (bind_ret_eq (read redis_available) _ _ _ _ eq_refl).
    cbn [redis_available]. rewrite Hav. cbn [negb].
    erewrite bind_raise_eq; [|apply lift_eq; cbn [world]; exact H1].
    unfold bind, update_stats, read, lift, move_to_dlq, hgetall, store_call.
    cbn [world redis_available faults hd]. try rewrite Hav.
    cbn [world redis_available faults hd]. reflexivity.
  - cbn [world stats jobs_failed store faults tl]. repeat apply conj; reflexivity.
Qed.

Lemma process_job_raises_from_its_handler_witness :
  redis_available outage_pipeline = true /\
  faults (world outage_pipeline) = [Some "Connection lost"; Some "Connection lost"] /\
  exists p',
    process_job sample_job_id outage_pipeline = (p', Raise "Connection lost") /\
    jobs_failed (stats p') = S (jobs_failed (stats outage_pipeline)) /\
    store (world p') = store (world outage_pipeline) /\
    faults (world p') = [].
Proof.
  split; [reflexivity|]. split; [reflexivity|].
  exact (process_job_raises_from_its_handler outage_pipeline sample_job_id
           "Connection lost" "Connection lost" [] eq_refl eq_refl).
Defined.

End Outcomes.
